(** * WhatsApp preview webhook: [receiveMessagePreview]

    A shallow embedding of
    [apps/builder/src/features/whatsapp/receiveMessagePreview.ts]
    and the properties of its dispatch logic.

    The handler is sequential TypeScript with exceptions and calls to
    external collaborators.  It is embedded in a small monad that threads
    the chronological list of collaborator calls and carries the
    exception channel next to it, so that the calls made before a [throw]
    stay observable. *)

From Stdlib Require Import ZArith List String Ascii Bool Lia DecimalString.
Import ListNotations.
Local Open Scope string_scope.
Local Open Scope list_scope.

(** ** JavaScript values that cross the boundary of the handler *)

(** The values handed to the telemetry calls: the result of [JSON.parse],
    the [details] of a [WhatsAppError], a breadcrumb's [data]. *)
#[local] Unset Elimination Schemes.
Inductive JsValue : Type :=
| JUndefined
| JNull
| JBool (b : bool)
| JNumber (n : Z)
| JString (s : string)
| JArray (items : list JsValue)
| JObject (fields : list (string * JsValue)).
#[local] Set Elimination Schemes.

(** [typeof v === "object"]: true of objects, arrays and [null]. *)
Definition typeof_object (v : JsValue) : bool :=
  match v with
  | JNull | JArray _ | JObject _ => true
  | _ => false
  end.

(** JavaScript truthiness. *)
Definition truthy (v : JsValue) : bool :=
  match v with
  | JUndefined | JNull => false
  | JBool b => b
  | JNumber n => negb (n =? 0)%Z
  | JString s => negb (s =? EmptyString)
  | JArray _ | JObject _ => true
  end.

(** Truthiness of a value of type [string | undefined]. *)
Definition truthy_string (v : option string) : bool :=
  match v with
  | None => false
  | Some s => negb (s =? EmptyString)
  end.

(** [Array.prototype.at]: a negative index counts from the end, an index
    out of range gives [undefined]. *)
Definition Array_at {A : Type} (l : list A) (i : Z) : option A :=
  let k := if (i <? 0)%Z then (Z.of_nat (List.length l) + i)%Z else i in
  if (k <? 0)%Z then None else nth_error l (Z.to_nat k).

(** ** The webhook payload ([WhatsAppWebhookRequestBody])

    The zod schema lives in [@typebot.io/whatsapp/schemas]; the records
    keep the fields the handler reads, optional wherever the handler
    guards the access with [?.] or [??].  What else a status, an error
    or a message carries (timestamps, titles, the body of the message)
    travels along as a list of named values: the handler never reads it,
    but it is part of what is serialised or handed on. *)

Record Error : Type := {
  code : Z;
  error_data : option JsValue;
  error_fields : list (string * JsValue)
}.

Record Status : Type := {
  recipient_id : string;
  errors : option (list Error);
  status_fields : list (string * JsValue)
}.

Record Message : Type := {
  from : string;
  type : string;
  message_fields : list (string * JsValue)
}.

Record Profile : Type := {
  name : option string
}.

Record Contact : Type := {
  profile : option Profile
}.

Record Value : Type := {
  statuses : option (list Status);
  messages : option (list Message);
  contacts : option (list Contact)
}.

Record Change : Type := {
  value : Value
}.

Record Entry : Type := {
  changes : list Change
}.

(** ** Exceptions *)

Inductive Exn : Type :=
| TRPCError (trpc_code : string) (message : string)
| WhatsAppError (message : string) (details : option JsValue)
| JsError (message : string)
| Thrown (v : JsValue).

(** [err instanceof WhatsAppError] *)
Definition instanceof_WhatsAppError (err : Exn) : bool :=
  match err with
  | WhatsAppError _ _ => true
  | _ => false
  end.

(** ** Collaborators *)

Record ResumeContact : Type := {
  contact_name : string;
  phoneNumber : string
}.

Record ResumeArgs : Type := {
  arg_receivedMessage : Message;
  sessionId : string;
  contact : ResumeContact
}.

(** One entry per call that leaves the handler, in the order made. *)
Inductive Event : Type :=
| Call_deleteSession (session_id : string)
| Call_resumeWhatsAppFlow (args : ResumeArgs)
| Call_Sentry_captureMessage (message : string) (details : option JsValue)
| Call_console_log (args : list JsValue)
| Call_parseUnknownError (err : Exn)
| Call_Sentry_addBreadcrumb (data : JsValue)
| Call_Sentry_captureException (err : Exn).

Definition Trace : Type := list Event.

(** How the world outside answers.  [None] is a call that completes,
    [Some e] one that throws (or whose promise rejects with) [e]. *)
Record World : Type := {
  deleteSession_outcome : string -> option Exn;
  resumeWhatsAppFlow_outcome : ResumeArgs -> option Exn;
  captureMessage_outcome : string -> option JsValue -> option Exn;
  (** [parseUnknownError] resolves to an object whose [details] is a
      [string | undefined], or rejects. *)
  parseUnknownError_outcome : Exn -> Exn + option string;
  addBreadcrumb_outcome : JsValue -> option Exn;
  captureException_outcome : Exn -> option Exn
}.

(** Built-ins and imported tables the source relies on.  [JSON_parse]
    gives [None] where [JSON.parse] throws a [SyntaxError]. *)
Record Builtins : Type := {
  JSON_parse : string -> option JsValue;
  JSON_stringify_status : Status -> string;
  JSON_stringify_errors : list Error -> string
}.

(** [incomingWebhookErrorCodes] of [@typebot.io/whatsapp/constants]. *)
Record IncomingWebhookErrorCodes : Type := {
  Could_not_send_message_to_unengaged_user : Z;
  Message_undeliverable : Z;
  Media_upload_error : Z
}.

Record Env : Type := {
  WHATSAPP_PREVIEW_FROM_PHONE_NUMBER_ID : option string
}.

(** ** The monad of the handler: a trace of calls and an exception channel *)

Definition M (A : Type) : Type := Trace -> (Exn + A) * Trace.

Definition ret {A : Type} (a : A) : M A := fun tr => (inr a, tr).

Definition throw {A : Type} (e : Exn) : M A := fun tr => (inl e, tr).

Definition bind {A B : Type} (c : M A) (k : A -> M B) : M B :=
  fun tr =>
    match c tr with
    | (inl e, tr') => (inl e, tr')
    | (inr a, tr') => k a tr'
    end.

(** [try { c } catch (err) { h err }] *)
Definition try_catch {A : Type} (c : M A) (h : Exn -> M A) : M A :=
  fun tr =>
    match c tr with
    | (inl e, tr') => h e tr'
    | (inr a, tr') => (inr a, tr')
    end.

(** A call to the outside: recorded, then it completes or throws. *)
Definition call (ev : Event) (outcome : option Exn) : M unit :=
  fun tr =>
    match outcome with
    | None => (inr tt, tr ++ [ev])
    | Some e => (inl e, tr ++ [ev])
    end.

Declare Scope handler_scope.
Delimit Scope handler_scope with handler.
Notation "x <- c ;; k" := (bind c (fun x => k))
  (at level 61, c at next level, right associativity) : handler_scope.
Notation "c ;; k" := (bind c (fun _ => k))
  (at level 61, right associativity) : handler_scope.
Local Open Scope handler_scope.

(** ** The source *)

Definition whatsAppPreviewSessionIdPrefix : string := "wa-preview-".

Record MessageData : Type := {
  receivedMessage : option Message;
  contactName : string;
  contactPhoneNumber : string
}.

Record Response : Type := {
  response_message : string
}.

(** [entry.at(0)?.changes.at(0)?.value] *)
Definition first_value (entry : list Entry) : option Value :=
  match Array_at entry 0 with
  | None => None
  | Some e =>
      match Array_at (changes e) 0 with
      | None => None
      | Some c => Some (value c)
      end
  end.

(** [xs?.at(0)] on an optional array. *)
Definition opt_at0 {A : Type} (xs : option (list A)) : option A :=
  match xs with
  | None => None
  | Some l => Array_at l 0
  end.

(** [x ?? d] *)
Definition nullish {A : Type} (x : option A) (d : A) : A :=
  match x with
  | Some a => a
  | None => d
  end.

(** [entry.at(0)?.changes.at(0)?.value.statuses?.at(0)] *)
Definition first_status (entry : list Entry) : option Status :=
  match first_value entry with
  | None => None
  | Some v => opt_at0 (statuses v)
  end.

(** [entry.at(0)?.changes.at(0)?.value.messages?.at(0)] *)
Definition first_message (entry : list Entry) : option Message :=
  match first_value entry with
  | None => None
  | Some v => opt_at0 (messages v)
  end.

(** [entry.at(0)?.changes.at(0)?.value?.contacts?.at(0)] *)
Definition first_contact (entry : list Entry) : option Contact :=
  match first_value entry with
  | None => None
  | Some v => opt_at0 (contacts v)
  end.

Definition extractMessageData (entry : list Entry) : MessageData :=
  let receivedMessage := first_message entry in
  let contactName :=
    nullish
      match first_contact entry with
      | None => None
      | Some c =>
          match profile c with
          | None => None
          | Some p => name p
          end
      end EmptyString in
  let contactPhoneNumber :=
    nullish (option_map from (first_message entry)) EmptyString in
  {| receivedMessage := receivedMessage;
     contactName := contactName;
     contactPhoneNumber := contactPhoneNumber |}.

Definition safeJsonParse (B : Builtins) (v : option string) : JsValue :=
  match v with
  | None => JUndefined
  | Some s =>
      if negb (truthy_string (Some s)) then JString s
      else
        match JSON_parse B s with
        | Some parsed => parsed
        | None => JString s
        end
  end.

Section Handler.

Context (env : Env) (codes : IncomingWebhookErrorCodes)
        (B : Builtins) (W : World).

Definition deleteSession (id : string) : M unit :=
  call (Call_deleteSession id) (deleteSession_outcome W id).

Definition resumeWhatsAppFlow (args : ResumeArgs) : M unit :=
  call (Call_resumeWhatsAppFlow args) (resumeWhatsAppFlow_outcome W args).

Definition Sentry_captureMessage (m : string) (d : option JsValue) : M unit :=
  call (Call_Sentry_captureMessage m d) (captureMessage_outcome W m d).

Definition Sentry_addBreadcrumb (data : JsValue) : M unit :=
  call (Call_Sentry_addBreadcrumb data) (addBreadcrumb_outcome W data).

Definition Sentry_captureException (err : Exn) : M unit :=
  call (Call_Sentry_captureException err) (captureException_outcome W err).

Definition console_log (args : list JsValue) : M unit :=
  call (Call_console_log args) None.

Definition parseUnknownError (err : Exn) : M (option string) :=
  fun tr =>
    match parseUnknownError_outcome W err with
    | inl e => (inl e, tr ++ [Call_parseUnknownError err])
    | inr d => (inr d, tr ++ [Call_parseUnknownError err])
    end.

Definition assertEnv : M unit :=
  if negb (truthy_string (WHATSAPP_PREVIEW_FROM_PHONE_NUMBER_ID env))
  then throw (TRPCError "INTERNAL_SERVER_ERROR"
                "WHATSAPP_PREVIEW_FROM_PHONE_NUMBER_ID is not defined")
  else ret tt.

Definition processErrors (entry : list Entry) : M unit :=
  match first_status entry with
  | None => ret tt
  | Some status =>
      match errors status with
      | None => ret tt
      | Some errs =>
          match Array_at errs 0 with
          | None =>
              throw (JsError ("WA empty errors: "
                                ++ JSON_stringify_status B status)%string)
          | Some error =>
              if (code error =? Could_not_send_message_to_unengaged_user codes)%Z
              then
                deleteSession
                  (whatsAppPreviewSessionIdPrefix
                     ++ recipient_id status)%string ;;
                throw (WhatsAppError
                         "Could not send message to unengaged user" None)
              else if (code error =? Message_undeliverable codes)%Z
              then throw (WhatsAppError "Message undeliverable" None)
              else if (code error =? Media_upload_error codes)%Z
              then
                throw (WhatsAppError "Media upload error"
                         (Some (JObject
                                  [("reason",
                                    nullish (error_data error) JUndefined)])))
              else
                throw (JsError ("WA unknown incoming errors: "
                                  ++ JSON_stringify_errors B errs)%string)
          end
      end
  end.

(** The [catch] block of the handler. *)
Definition report (err : Exn) : M unit :=
  match err with
  | WhatsAppError msg details => Sentry_captureMessage msg details
  | _ =>
      console_log [JString "Sending unkown error to Sentry"] ;;
      parsed <- parseUnknownError err ;;
      let details := safeJsonParse B parsed in
      console_log [JString "details"; details] ;;
      Sentry_addBreadcrumb
        (if typeof_object details && truthy details
         then details
         else JObject [("details", details)]) ;;
      Sentry_captureException err
  end.

(** The body of [try]: [Some r] is a [return r] from inside the block,
    [None] falls through to the statements after it. *)
Definition try_block (entry : list Entry) : M (option Response) :=
  processErrors entry ;;
  let d := extractMessageData entry in
  match receivedMessage d with
  | None => ret (Some {| response_message := "No message content found" |})
  | Some m =>
      if type m =? "reaction"
      then ret (Some {| response_message := "No message content found" |})
      else
        resumeWhatsAppFlow
          {| arg_receivedMessage := m;
             sessionId := (whatsAppPreviewSessionIdPrefix ++ from m)%string;
             contact := {| contact_name := contactName d;
                           phoneNumber := contactPhoneNumber d |} |} ;;
        ret None
  end.

Definition receiveMessagePreview (entry : list Entry) : M Response :=
  assertEnv ;;
  early <- try_catch (try_block entry)
             (fun err => report err ;; ret None) ;;
  match early with
  | Some r => ret r
  | None => ret {| response_message := "Message received" |}
  end.

(** One invocation, from an empty trace. *)
Definition run (entry : list Entry) : (Exn + Response) * Trace :=
  receiveMessagePreview entry [].

End Handler.

(** ** Observations on a trace *)

Fixpoint deleteSession_calls (tr : Trace) : list string :=
  match tr with
  | [] => []
  | Call_deleteSession id :: rest => id :: deleteSession_calls rest
  | _ :: rest => deleteSession_calls rest
  end.

Fixpoint resumeWhatsAppFlow_calls (tr : Trace) : list ResumeArgs :=
  match tr with
  | [] => []
  | Call_resumeWhatsAppFlow args :: rest => args :: resumeWhatsAppFlow_calls rest
  | _ :: rest => resumeWhatsAppFlow_calls rest
  end.

(** The telemetry calls complete: the standing assumption under which
    the handler is said to acknowledge. *)
Definition reporters_ok (W : World) : Prop :=
  (forall m d, captureMessage_outcome W m d = None)
  /\ (forall e, exists d, parseUnknownError_outcome W e = inr d)
  /\ (forall v, addBreadcrumb_outcome W v = None)
  /\ (forall e, captureException_outcome W e = None).

(** [env.WHATSAPP_PREVIEW_FROM_PHONE_NUMBER_ID] passes the test of
    [assertEnv]. *)
Definition env_defined (env : Env) : bool :=
  truthy_string (WHATSAPP_PREVIEW_FROM_PHONE_NUMBER_ID env).

(** [status?.errors] of the first status. *)
Definition first_status_errors (entry : list Entry) : option (list Error) :=
  match first_status entry with
  | None => None
  | Some st => errors st
  end.

(** The first change of the first entry has no [messages], or [messages]
    holds a single message of type ["reaction"]. *)
Definition messages_absent_or_only_reaction (entry : list Entry) : bool :=
  match first_value entry with
  | None => true
  | Some v =>
      match messages v with
      | None => true
      | Some [m] => type m =? "reaction"
      | Some _ => false
      end
  end.

(** A status cut down to its first error. *)
Definition first_error_only (st : Status) : Status :=
  {| recipient_id := recipient_id st;
     errors := option_map (firstn 1) (errors st);
     status_fields := status_fields st |}.

(** The first elements of a payload: first status with its first error,
    first message, first contact, all of the first entry's first change. *)
Definition first_elements (entry : list Entry)
  : option Status * option Message * option Contact :=
  (option_map first_error_only (first_status entry),
   first_message entry, first_contact entry).

(** The code is one of the three of [incomingWebhookErrorCodes]. *)
Definition known_code (codes : IncomingWebhookErrorCodes) (c : Z) : bool :=
  (c =? Could_not_send_message_to_unengaged_user codes)%Z
  || (c =? Message_undeliverable codes)%Z
  || (c =? Media_upload_error codes)%Z.

(** What the handler consults of the first status: all of it, except
    that the errors after the first do not count when the first error's
    code is a known one. *)
Definition consulted_status (codes : IncomingWebhookErrorCodes)
           (st : Status) : Status :=
  match errors st with
  | Some (error :: _) =>
      if known_code codes (code error) then first_error_only st else st
  | _ => st
  end.

(** What the handler consults of a payload. *)
Definition consulted (codes : IncomingWebhookErrorCodes) (entry : list Entry)
  : option Status * option Message * option Contact :=
  (option_map (consulted_status codes) (first_status entry),
   first_message entry, first_contact entry).

(** ** Sample instances

    A serialiser after [JSON.stringify], a code table, and worlds in
    which the collaborators answer in a fixed way.  The sample runs
    below are evaluated on them. *)

Module Sample.

Definition dquote : ascii := ascii_of_nat 34.
Definition backslash : ascii := ascii_of_nat 92.

Fixpoint escape (s : string) : string :=
  match s with
  | EmptyString => EmptyString
  | String c rest =>
      if (c =? dquote)%char || (c =? backslash)%char
      then String backslash (String c (escape rest))
      else String c (escape rest)
  end.

Definition quote (s : string) : string :=
  String dquote (escape s ++ String dquote EmptyString)%string.

Definition decimal (n : Z) : string :=
  NilZero.string_of_int (Z.to_int n).

Fixpoint join (sep : string) (l : list string) : string :=
  match l with
  | [] => EmptyString
  | [x] => x
  | x :: rest => (x ++ sep ++ join sep rest)%string
  end.

(** [JSON.stringify]: a property whose value is [undefined] is left
    out of an object and printed as [null] in an array. *)
Fixpoint JSON_stringify (v : JsValue) : string :=
  match v with
  | JUndefined | JNull => "null"
  | JBool true => "true"
  | JBool false => "false"
  | JNumber n => decimal n
  | JString s => quote s
  | JArray items =>
      ("[" ++ join ","
         ((fix each (l : list JsValue) : list string :=
             match l with
             | [] => []
             | x :: rest => JSON_stringify x :: each rest
             end) items) ++ "]")%string
  | JObject fields =>
      ("{" ++ join ","
         ((fix each (l : list (string * JsValue)) : list string :=
             match l with
             | [] => []
             | (k, x) :: rest =>
                 match x with
                 | JUndefined => each rest
                 | _ => (quote k ++ ":" ++ JSON_stringify x)%string
                          :: each rest
                 end
             end) fields) ++ "}")%string
  end.

Definition js_of_error (e : Error) : JsValue :=
  JObject (("code", JNumber (code e))
             :: error_fields e
             ++ [("error_data", nullish (error_data e) JUndefined)]).

Definition js_of_status (st : Status) : JsValue :=
  JObject (status_fields st
             ++ [("recipient_id", JString (recipient_id st));
                 ("errors",
                  match errors st with
                  | None => JUndefined
                  | Some errs => JArray (map js_of_error errs)
                  end)]).

(** A parser for the handful of texts the sample worlds produce. *)
Definition parse (s : string) : option JsValue :=
  if s =? "null" then Some JNull
  else if s =? "{}" then Some (JObject [])
  else if s =? "[]" then Some (JArray [])
  else if s =? "true" then Some (JBool true)
  else if s =? "false" then Some (JBool false)
  else None.

Definition builtins : Builtins :=
  {| JSON_parse := parse;
     JSON_stringify_status := fun st => JSON_stringify (js_of_status st);
     JSON_stringify_errors :=
       fun errs => JSON_stringify (JArray (map js_of_error errs)) |}.

Definition codes : IncomingWebhookErrorCodes :=
  {| Could_not_send_message_to_unengaged_user := 131047;
     Message_undeliverable := 131026;
     Media_upload_error := 131053 |}.

Definition env_set : Env :=
  {| WHATSAPP_PREVIEW_FROM_PHONE_NUMBER_ID := Some "104213456789012" |}.

Definition env_unset : Env :=
  {| WHATSAPP_PREVIEW_FROM_PHONE_NUMBER_ID := None |}.

(** Every collaborator completes. *)
Definition world_up : World :=
  {| deleteSession_outcome := fun _ => None;
     resumeWhatsAppFlow_outcome := fun _ => None;
     captureMessage_outcome := fun _ _ => None;
     parseUnknownError_outcome := fun _ => inr None;
     addBreadcrumb_outcome := fun _ => None;
     captureException_outcome := fun _ => None |}.

(** The session store and the flow engine are down, telemetry works. *)
Definition world_down : World :=
  {| deleteSession_outcome := fun _ => Some (JsError "session store down");
     resumeWhatsAppFlow_outcome := fun _ => Some (JsError "flow engine down");
     captureMessage_outcome := fun _ _ => None;
     parseUnknownError_outcome := fun _ => inr (Some "{}");
     addBreadcrumb_outcome := fun _ => None;
     captureException_outcome := fun _ => None |}.

(** The collaborators work, [Sentry.captureException] throws. *)
Definition world_mute : World :=
  {| deleteSession_outcome := fun _ => None;
     resumeWhatsAppFlow_outcome := fun _ => None;
     captureMessage_outcome := fun _ _ => None;
     parseUnknownError_outcome := fun _ => inr None;
     addBreadcrumb_outcome := fun _ => None;
     captureException_outcome := fun _ => Some (JsError "sentry down") |}.

Definition payload_of (v : Value) : list Entry :=
  [ {| changes := [ {| value := v |} ] |} ].

Definition text_message : Message :=
  {| from := "33612345678"; type := "text";
     message_fields := [("text", JObject [("body", JString "Hello")])] |}.

Definition reaction_message : Message :=
  {| from := "33612345678"; type := "reaction";
     message_fields := [("reaction", JObject [("emoji", JString ":)")])] |}.

Definition john : Contact :=
  {| profile := Some {| name := Some "John" |} |}.

Definition failed_status (errs : list Error) : Status :=
  {| recipient_id := "33612345678"; errors := Some errs;
     status_fields := [("status", JString "failed")] |}.

Definition error_of (c : Z) : Error :=
  {| code := c; error_data := None; error_fields := [] |}.

Definition inbound_text : list Entry :=
  payload_of {| statuses := None;
                messages := Some [text_message];
                contacts := Some [john] |}.

Definition inbound_reaction : list Entry :=
  payload_of {| statuses := None;
                messages := Some [reaction_message];
                contacts := Some [john] |}.

Definition status_with (errs : list Error) : list Entry :=
  payload_of {| statuses := Some [failed_status errs];
                messages := None;
                contacts := None |}.

End Sample.

(** The arguments the handler hands to [resumeWhatsAppFlow] for the
    message [m] of the payload [entry]. *)
Definition resume_args_of (entry : list Entry) (m : Message) : ResumeArgs :=
  {| arg_receivedMessage := m;
     sessionId := (whatsAppPreviewSessionIdPrefix ++ from m)%string;
     contact :=
       {| contact_name := contactName (extractMessageData entry);
          phoneNumber := contactPhoneNumber (extractMessageData entry) |} |}.

(** [entry.at(0)?.changes.at(0)?.value?.contacts?.at(0)?.profile?.name] *)
Definition first_contact_name (entry : list Entry) : option string :=
  match first_contact entry with
  | None => None
  | Some c =>
      match profile c with
      | None => None
      | Some p => name p
      end
  end.

(** The part of [processErrors] that follows the lookup of [status]. *)
Definition processErrors_of_status (codes : IncomingWebhookErrorCodes)
           (B : Builtins) (W : World) (status : option Status) : M unit :=
  match status with
  | None => ret tt
  | Some status =>
      match errors status with
      | None => ret tt
      | Some errs =>
          match Array_at errs 0 with
          | None =>
              throw (JsError ("WA empty errors: "
                                ++ JSON_stringify_status B status)%string)
          | Some error =>
              if (code error =? Could_not_send_message_to_unengaged_user codes)%Z
              then
                deleteSession W
                  (whatsAppPreviewSessionIdPrefix
                     ++ recipient_id status)%string ;;
                throw (WhatsAppError
                         "Could not send message to unengaged user" None)
              else if (code error =? Message_undeliverable codes)%Z
              then throw (WhatsAppError "Message undeliverable" None)
              else if (code error =? Media_upload_error codes)%Z
              then
                throw (WhatsAppError "Media upload error"
                         (Some (JObject
                                  [("reason",
                                    nullish (error_data error) JUndefined)])))
              else
                throw (JsError ("WA unknown incoming errors: "
                                  ++ JSON_stringify_errors B errs)%string)
          end
      end
  end.

(** [typeof details === "object" && details ? details : { details }],
    the [data] of the breadcrumb. *)
Definition breadcrumb_data (details : JsValue) : JsValue :=
  if typeof_object details && truthy details
  then details
  else JObject [("details", details)].

(** Calls to the telemetry side: everything but the session store and
    the flow engine. *)
Definition is_telemetry (ev : Event) : bool :=
  match ev with
  | Call_deleteSession _ | Call_resumeWhatsAppFlow _ => false
  | _ => true
  end.

(** The error reports proper: [Sentry.captureMessage] and
    [Sentry.captureException]. *)
Definition is_error_report (ev : Event) : bool :=
  match ev with
  | Call_Sentry_captureMessage _ _ | Call_Sentry_captureException _ => true
  | _ => false
  end.

Definition error_reports (tr : Trace) : list Event :=
  filter is_error_report tr.

(** The call [ev] is a telemetry call that threw [e] in the world [W]. *)
Definition telemetry_failure (W : World) (ev : Event) (e : Exn) : Prop :=
  match ev with
  | Call_Sentry_captureMessage m d => captureMessage_outcome W m d = Some e
  | Call_parseUnknownError err => parseUnknownError_outcome W err = inl e
  | Call_Sentry_addBreadcrumb data => addBreadcrumb_outcome W data = Some e
  | Call_Sentry_captureException err => captureException_outcome W err = Some e
  | _ => False
  end.

(** What is left of an invocation once [err] was caught after the calls
    [head]: the [catch] block, then the final [return]. *)
Definition caught (B : Builtins) (W : World) (err : Exn) (head : Trace)
  : (Exn + Response) * Trace :=
  (match fst (report B W err []) with
   | inl e' => inl e'
   | inr _ => inr {| response_message := "Message received" |}
   end,
   head ++ snd (report B W err [])).

(** * Properties *)

(** Closes a goal [exists e evs, throw e tr = (inl e, tr ++ evs) /\ ...]
    for a [throw] that made no call. *)
Ltac exists_throw_nil :=
  unfold throw; eexists; exists [];
  rewrite app_nil_r; split; [reflexivity|]; split; [reflexivity|];
  left; reflexivity.

(** ** Traces *)

Lemma deleteSession_calls_app (a b : Trace) :
  deleteSession_calls (a ++ b) = deleteSession_calls a ++ deleteSession_calls b.
Proof.
  induction a as [|ev a IH]; simpl; [reflexivity|].
  destruct ev; simpl; rewrite IH; reflexivity.
Qed.

Lemma resumeWhatsAppFlow_calls_app (a b : Trace) :
  resumeWhatsAppFlow_calls (a ++ b)
  = resumeWhatsAppFlow_calls a ++ resumeWhatsAppFlow_calls b.
Proof.
  induction a as [|ev a IH]; simpl; [reflexivity|].
  destruct ev; simpl; rewrite IH; reflexivity.
Qed.

(** ** The monad *)

Lemma call_fst (ev : Event) (o : option Exn) (tr : Trace) :
  fst (call ev o tr) = match o with Some e => inl e | None => inr tt end.
Proof. unfold call. destruct o; reflexivity. Qed.

Lemma call_snd (ev : Event) (o : option Exn) (tr : Trace) :
  snd (call ev o tr) = tr ++ [ev].
Proof. unfold call. destruct o; reflexivity. Qed.

Lemma call_eq (ev : Event) (o : option Exn) (tr : Trace) :
  call ev o tr
  = (match o with Some e => inl e | None => inr tt end, tr ++ [ev]).
Proof. unfold call. destruct o; reflexivity. Qed.

(** ** The [catch] block *)

Section Report.

Context (B : Builtins) (W : World).

(** Reporting only appends telemetry calls: it reaches neither the
    session store nor the flow engine. *)
Lemma report_trace (err : Exn) (tr : Trace) :
  exists evs,
    snd (report B W err tr) = tr ++ evs
    /\ deleteSession_calls evs = []
    /\ resumeWhatsAppFlow_calls evs = [].
Proof.
  assert (unclassified :
    forall e, instanceof_WhatsAppError e = false ->
      exists evs,
        snd ((console_log [JString "Sending unkown error to Sentry"] ;;
              parsed <- parseUnknownError W e ;;
              let details := safeJsonParse B parsed in
              console_log [JString "details"; details] ;;
              Sentry_addBreadcrumb W
                (if typeof_object details && truthy details
                 then details
                 else JObject [("details", details)]) ;;
              Sentry_captureException W e) tr) = tr ++ evs
        /\ deleteSession_calls evs = []
        /\ resumeWhatsAppFlow_calls evs = []).
  { intros e _.
    unfold bind, console_log, parseUnknownError, Sentry_addBreadcrumb,
      Sentry_captureException, call.
    destruct (parseUnknownError_outcome W e) as [e'|d]; simpl.
    - eexists. rewrite <- app_assoc. split; [reflexivity|]. split; reflexivity.
    - destruct (addBreadcrumb_outcome W _); simpl.
      + eexists. rewrite <- !app_assoc. split; [reflexivity|].
        split; reflexivity.
      + destruct (captureException_outcome W e); simpl;
          eexists; rewrite <- !app_assoc;
          (split; [reflexivity|]); split; reflexivity. }
  destruct err as [c m|m d|m|v]; try (apply unclassified; reflexivity).
  unfold report, Sentry_captureMessage. rewrite call_snd.
  eexists. split; [reflexivity|]. split; reflexivity.
Qed.

Lemma report_completes (err : Exn) (tr : Trace) :
  reporters_ok W -> fst (report B W err tr) = inr tt.
Proof.
  intros (Hmsg & Hparse & Hcrumb & Hexn).
  assert (unclassified :
    forall e,
      fst ((console_log [JString "Sending unkown error to Sentry"] ;;
            parsed <- parseUnknownError W e ;;
            let details := safeJsonParse B parsed in
            console_log [JString "details"; details] ;;
            Sentry_addBreadcrumb W
              (if typeof_object details && truthy details
               then details
               else JObject [("details", details)]) ;;
            Sentry_captureException W e) tr) = inr tt).
  { intros e.
    unfold bind, console_log, parseUnknownError, Sentry_addBreadcrumb,
      Sentry_captureException, call.
    destruct (Hparse e) as [d Hd]. rewrite Hd. simpl.
    rewrite Hcrumb, Hexn. reflexivity. }
  destruct err as [c m|m d|m|v]; try apply unclassified.
  unfold report, Sentry_captureMessage. rewrite call_fst, Hmsg. reflexivity.
Qed.

End Report.

(** ** Error processing and the [try] block *)


Section Dispatch.

Context (env : Env) (codes : IncomingWebhookErrorCodes)
        (B : Builtins) (W : World).

Lemma processErrors_returns (entry : list Entry) (tr : Trace) :
  first_status_errors entry = None ->
  processErrors codes B W entry tr = (inr tt, tr).
Proof.
  unfold first_status_errors, processErrors.
  destruct (first_status entry) as [st|]; [|reflexivity].
  intros ->. reflexivity.
Qed.

(** With an [errors] field on the first status, error processing
    throws; the only call it can have made is the session deletion. *)
Lemma processErrors_throws (entry : list Entry) (st : Status)
      (errs : list Error) (tr : Trace) :
  first_status entry = Some st ->
  errors st = Some errs ->
  exists e evs,
    processErrors codes B W entry tr = (inl e, tr ++ evs)
    /\ resumeWhatsAppFlow_calls evs = []
    /\ (evs = []
        \/ evs = [Call_deleteSession
                    (whatsAppPreviewSessionIdPrefix ++ recipient_id st)%string]).
Proof.
  intros Hst Herrs. unfold processErrors. rewrite Hst, Herrs.
  destruct (Array_at errs 0) as [error|].
  - destruct (code error =? _)%Z.
    + unfold bind, deleteSession. rewrite call_eq.
      destruct (deleteSession_outcome W _);
        do 2 eexists; (split; [reflexivity|]); split; auto.
    + destruct (code error =? _)%Z; [|destruct (code error =? _)%Z];
        exists_throw_nil.
  - exists_throw_nil.
Qed.

Lemma try_block_eq (entry : list Entry) (tr : Trace) :
  try_block codes B W entry tr
  = match processErrors codes B W entry tr with
    | (inl e, tr1) => (inl e, tr1)
    | (inr _, tr1) =>
        match first_message entry with
        | None =>
            (inr (Some {| response_message := "No message content found" |}),
             tr1)
        | Some m =>
            if type m =? "reaction"
            then
              (inr (Some {| response_message := "No message content found" |}),
               tr1)
            else
              (match resumeWhatsAppFlow_outcome W (resume_args_of entry m) with
               | Some e => inl e
               | None => inr None
               end,
               tr1 ++ [Call_resumeWhatsAppFlow (resume_args_of entry m)])
        end
    end.
Proof.
  unfold try_block, bind.
  destruct (processErrors codes B W entry tr) as [[e|[]] tr1]; [reflexivity|].
  cbn [extractMessageData receivedMessage].
  destruct (first_message entry) as [m|]; [|reflexivity].
  destruct (type m =? "reaction"); [reflexivity|].
  unfold resumeWhatsAppFlow. rewrite call_eq.
  unfold resume_args_of, ret. cbn [extractMessageData contactName contactPhoneNumber].
  destruct (resumeWhatsAppFlow_outcome W _); reflexivity.
Qed.

Lemma receiveMessagePreview_eq (entry : list Entry) (tr : Trace) :
  env_defined env = true ->
  receiveMessagePreview env codes B W entry tr
  = match try_block codes B W entry tr with
    | (inl e, tr1) =>
        match report B W e tr1 with
        | (inl e', tr2) => (inl e', tr2)
        | (inr _, tr2) =>
            (inr {| response_message := "Message received" |}, tr2)
        end
    | (inr (Some r), tr1) => (inr r, tr1)
    | (inr None, tr1) =>
        (inr {| response_message := "Message received" |}, tr1)
    end.
Proof.
  unfold env_defined. intros Henv.
  unfold receiveMessagePreview, assertEnv, bind, try_catch, ret.
  rewrite Henv. cbn [negb].
  destruct (try_block codes B W entry tr) as [[e|[r|]] tr1]; try reflexivity.
  destruct (report B W e tr1) as [[e'|[]] tr2]; reflexivity.
Qed.

Lemma receiveMessagePreview_unset (entry : list Entry) (tr : Trace) :
  env_defined env = false ->
  receiveMessagePreview env codes B W entry tr
  = (inl (TRPCError "INTERNAL_SERVER_ERROR"
            "WHATSAPP_PREVIEW_FROM_PHONE_NUMBER_ID is not defined"), tr).
Proof.
  unfold env_defined. intros Henv.
  unfold receiveMessagePreview, assertEnv, bind, throw.
  rewrite Henv. reflexivity.
Qed.

Lemma receiveMessagePreview_trace (entry : list Entry) (tr : Trace) :
  env_defined env = true ->
  snd (receiveMessagePreview env codes B W entry tr)
  = match try_block codes B W entry tr with
    | (inl e, tr1) => snd (report B W e tr1)
    | (inr _, tr1) => tr1
    end.
Proof.
  intros Henv. rewrite receiveMessagePreview_eq by exact Henv.
  destruct (try_block codes B W entry tr) as [[e|[r|]] tr1]; try reflexivity.
  destruct (report B W e tr1) as [[e'|[]] tr2]; reflexivity.
Qed.

Lemma receiveMessagePreview_result (entry : list Entry) (tr : Trace) :
  env_defined env = true ->
  reporters_ok W ->
  fst (receiveMessagePreview env codes B W entry tr)
  = match try_block codes B W entry tr with
    | (inr (Some r), _) => inr r
    | _ => inr {| response_message := "Message received" |}
    end.
Proof.
  intros Henv Hok. rewrite receiveMessagePreview_eq by exact Henv.
  destruct (try_block codes B W entry tr) as [[e|[r|]] tr1]; try reflexivity.
  pose proof (report_completes B W e tr1 Hok) as Hrep.
  destruct (report B W e tr1) as [[e'|[]] tr2]; simpl in Hrep;
    [discriminate|reflexivity].
Qed.

End Dispatch.

(** ** The handler on every payload *)

Lemma sample_reporters_up : reporters_ok Sample.world_up.
Proof.
  repeat split; intros; try reflexivity. eexists; reflexivity.
Defined.

Lemma sample_reporters_down : reporters_ok Sample.world_down.
Proof.
  repeat split; intros; try reflexivity. eexists; reflexivity.
Defined.

(** C1.  With [WHATSAPP_PREVIEW_FROM_PHONE_NUMBER_ID] set and telemetry
    calls that complete, the handler returns a value [{message}] on every
    payload, whatever the session store and the flow engine do: no
    exception of error processing, extraction or flow resumption leaves
    it.  The message is one of the two literals of the source. *)
Theorem handler_always_acknowledges :
  forall (env : Env) (codes : IncomingWebhookErrorCodes) (B : Builtins)
         (W : World) (entry : list Entry),
    env_defined env = true ->
    reporters_ok W ->
    exists m,
      fst (run env codes B W entry) = inr {| response_message := m |}
      /\ (m = "Message received" \/ m = "No message content found").
Proof.
  intros env codes B W entry Henv Hok. unfold run.
  rewrite receiveMessagePreview_result by assumption.
  rewrite try_block_eq.
  destruct (processErrors codes B W entry []) as [[e|[]] tr1].
  - eexists; split; [reflexivity|]; left; reflexivity.
  - destruct (first_message entry) as [m|].
    + destruct (type m =? "reaction").
      * eexists; split; [reflexivity|]; right; reflexivity.
      * destruct (resumeWhatsAppFlow_outcome W _);
          eexists; (split; [reflexivity|]); left; reflexivity.
    + eexists; split; [reflexivity|]; right; reflexivity.
Qed.

Lemma handler_always_acknowledges_witness :
  exists m,
    fst (run Sample.env_set Sample.codes Sample.builtins Sample.world_down
           Sample.inbound_text) = inr {| response_message := m |}
    /\ (m = "Message received" \/ m = "No message content found").
Proof.
  apply (handler_always_acknowledges Sample.env_set Sample.codes
           Sample.builtins Sample.world_down Sample.inbound_text).
  - reflexivity.
  - exact sample_reporters_down.
Defined.

(** C7.  When [WHATSAPP_PREVIEW_FROM_PHONE_NUMBER_ID] is absent the
    handler throws the [TRPCError] with code [INTERNAL_SERVER_ERROR] to
    its caller, whatever the payload, and has made no call at all: no
    session deletion, no flow resumption, no report. *)
Theorem missing_env_fails_before_processing :
  forall (env : Env) (codes : IncomingWebhookErrorCodes) (B : Builtins)
         (W : World) (entry : list Entry),
    WHATSAPP_PREVIEW_FROM_PHONE_NUMBER_ID env = None ->
    run env codes B W entry
    = (inl (TRPCError "INTERNAL_SERVER_ERROR"
              "WHATSAPP_PREVIEW_FROM_PHONE_NUMBER_ID is not defined"), []).
Proof.
  intros env codes B W entry Henv. unfold run.
  apply receiveMessagePreview_unset. unfold env_defined.
  rewrite Henv. reflexivity.
Qed.

Lemma missing_env_fails_before_processing_witness :
  run Sample.env_unset Sample.codes Sample.builtins Sample.world_up
    Sample.inbound_text
  = (inl (TRPCError "INTERNAL_SERVER_ERROR"
            "WHATSAPP_PREVIEW_FROM_PHONE_NUMBER_ID is not defined"), []).
Proof.
  apply (missing_env_fails_before_processing Sample.env_unset Sample.codes
           Sample.builtins Sample.world_up Sample.inbound_text).
  reflexivity.
Defined.

(** C9.  [extractMessageData] is a total function of the payload: it has
    no error channel.  Its [contactName] is the empty string when the
    first contact's profile name is absent; its [contactPhoneNumber] is
    the empty string when there is no first message and the [from] of
    the first message otherwise, whatever [contacts] holds. *)
Theorem extractMessageData_defaults :
  forall (entry : list Entry),
    receivedMessage (extractMessageData entry) = first_message entry
    /\ (first_contact_name entry = None ->
        contactName (extractMessageData entry) = EmptyString)
    /\ (first_message entry = None ->
        contactPhoneNumber (extractMessageData entry) = EmptyString)
    /\ (forall m, first_message entry = Some m ->
          contactPhoneNumber (extractMessageData entry) = from m)
    /\ (forall entry', first_message entry' = first_message entry ->
          contactPhoneNumber (extractMessageData entry')
          = contactPhoneNumber (extractMessageData entry)).
Proof.
  intros entry. unfold extractMessageData, first_contact_name.
  cbn [receivedMessage contactName contactPhoneNumber].
  split; [reflexivity|]. split; [intros ->; reflexivity|].
  split; [intros ->; reflexivity|].
  split; [intros m ->; reflexivity|].
  intros entry' ->. reflexivity.
Qed.

Lemma extractMessageData_defaults_witness :
  contactName (extractMessageData (Sample.status_with [])) = EmptyString
  /\ contactPhoneNumber (extractMessageData (Sample.status_with []))
     = EmptyString
  /\ contactPhoneNumber (extractMessageData Sample.inbound_text)
     = from Sample.text_message.
Proof.
  destruct (extractMessageData_defaults (Sample.status_with []))
    as (_ & Hname & Hphone & _).
  destruct (extractMessageData_defaults Sample.inbound_text)
    as (_ & _ & _ & Hfrom & _).
  split; [apply Hname; reflexivity|].
  split; [apply Hphone; reflexivity|].
  apply (Hfrom Sample.text_message); reflexivity.
Defined.

(** C3.  With the environment value set, a payload whose first message
    is not a reaction and whose first status has no [errors] field makes
    the handler call [resumeWhatsAppFlow] exactly once, with the message,
    the session id ["wa-preview-" + from] and the contact name and phone
    number of [extractMessageData]; the session store is not touched;
    and when the resumption completes the handler returns
    [{message: "Message received"}] having made no other call. *)
Theorem inbound_message_resumes_flow :
  forall (env : Env) (codes : IncomingWebhookErrorCodes) (B : Builtins)
         (W : World) (entry : list Entry) (m : Message),
    env_defined env = true ->
    first_message entry = Some m ->
    type m <> "reaction" ->
    first_status_errors entry = None ->
    let args :=
      {| arg_receivedMessage := m;
         sessionId := ("wa-preview-" ++ from m)%string;
         contact :=
           {| contact_name := contactName (extractMessageData entry);
              phoneNumber := contactPhoneNumber (extractMessageData entry) |} |} in
    resumeWhatsAppFlow_calls (snd (run env codes B W entry)) = [args]
    /\ deleteSession_calls (snd (run env codes B W entry)) = []
    /\ contact_name (contact args)
       = nullish (first_contact_name entry) EmptyString
    /\ phoneNumber (contact args) = from m
    /\ (resumeWhatsAppFlow_outcome W args = None ->
        run env codes B W entry
        = (inr {| response_message := "Message received" |},
           [Call_resumeWhatsAppFlow args])).
Proof.
  intros env codes B W entry m Henv Hm Htype Hst args.
  assert (Hargs : resume_args_of entry m = args) by reflexivity.
  apply String.eqb_neq in Htype.
  unfold run.
  rewrite receiveMessagePreview_trace by exact Henv.
  rewrite receiveMessagePreview_eq by exact Henv.
  rewrite try_block_eq, processErrors_returns by exact Hst.
  rewrite Hm, Htype, Hargs. cbn [app].
  split; [|split; [|split; [|split]]].
  - destruct (resumeWhatsAppFlow_outcome W args) as [e|]; [|reflexivity].
    destruct (report_trace B W e [Call_resumeWhatsAppFlow args])
      as (evs & -> & _ & Hres).
    rewrite resumeWhatsAppFlow_calls_app, Hres. reflexivity.
  - destruct (resumeWhatsAppFlow_outcome W args) as [e|]; [|reflexivity].
    destruct (report_trace B W e [Call_resumeWhatsAppFlow args])
      as (evs & -> & Hdel & _).
    rewrite deleteSession_calls_app, Hdel. reflexivity.
  - reflexivity.
  - unfold args. cbn [contact phoneNumber].
    unfold extractMessageData. cbn [contactPhoneNumber].
    rewrite Hm. reflexivity.
  - intros ->. reflexivity.
Qed.

Lemma inbound_message_resumes_flow_witness :
  let args :=
    {| arg_receivedMessage := Sample.text_message;
       sessionId := "wa-preview-33612345678";
       contact := {| contact_name := "John"; phoneNumber := "33612345678" |} |} in
  resumeWhatsAppFlow_calls
    (snd (run Sample.env_set Sample.codes Sample.builtins Sample.world_up
            Sample.inbound_text)) = [args]
  /\ run Sample.env_set Sample.codes Sample.builtins Sample.world_up
       Sample.inbound_text
     = (inr {| response_message := "Message received" |},
        [Call_resumeWhatsAppFlow args]).
Proof.
  intros args.
  destruct (inbound_message_resumes_flow Sample.env_set Sample.codes
              Sample.builtins Sample.world_up Sample.inbound_text
              Sample.text_message)
    as (Hcalls & _ & _ & _ & Hret).
  - reflexivity.
  - reflexivity.
  - discriminate.
  - reflexivity.
  - split; [exact Hcalls|]. apply Hret. reflexivity.
Defined.

(** ** Status errors *)

Section StatusErrors.

Context (env : Env) (codes : IncomingWebhookErrorCodes)
        (B : Builtins) (W : World).

(** An [errors] field on the first status keeps the flow engine out of
    the invocation, whatever the environment. *)
Lemma status_errors_no_resumption (entry : list Entry) (errs : list Error) :
  first_status_errors entry = Some errs ->
  resumeWhatsAppFlow_calls (snd (run env codes B W entry)) = [].
Proof.
  unfold first_status_errors, run. intros Herrs.
  destruct (first_status entry) as [st|] eqn:Hst; [|discriminate].
  destruct (env_defined env) eqn:Henv.
  - rewrite receiveMessagePreview_trace, try_block_eq by exact Henv.
    destruct (processErrors_throws codes B W entry st errs [] Hst Herrs)
      as (e & evs & -> & Hres & _).
    destruct (report_trace B W e ([] ++ evs)) as (evs' & -> & _ & Hres').
    rewrite !resumeWhatsAppFlow_calls_app, Hres, Hres'. reflexivity.
  - rewrite receiveMessagePreview_unset by exact Henv. reflexivity.
Qed.

(** Without one, the session store stays out of it. *)
Lemma no_status_errors_no_deletion (entry : list Entry) :
  first_status_errors entry = None ->
  deleteSession_calls (snd (run env codes B W entry)) = [].
Proof.
  unfold run. intros Hst.
  destruct (env_defined env) eqn:Henv.
  - rewrite receiveMessagePreview_trace, try_block_eq by exact Henv.
    rewrite processErrors_returns by exact Hst.
    destruct (first_message entry) as [m|]; [|reflexivity].
    destruct (type m =? "reaction"); [reflexivity|].
    destruct (resumeWhatsAppFlow_outcome W _) as [e|]; [|reflexivity].
    destruct (report_trace B W e
                ([] ++ [Call_resumeWhatsAppFlow (resume_args_of entry m)]))
      as (evs & -> & Hdel & _).
    rewrite deleteSession_calls_app, Hdel. reflexivity.
  - rewrite receiveMessagePreview_unset by exact Henv. reflexivity.
Qed.

(** An error thrown by [processErrors] without any call: what the
    handler then does. *)
Lemma thrown_without_call (entry : list Entry) (err : Exn) :
  (forall tr, processErrors codes B W entry tr = (inl err, tr)) ->
  let tr := snd (run env codes B W entry) in
  deleteSession_calls tr = []
  /\ resumeWhatsAppFlow_calls tr = []
  /\ (env_defined env = true -> tr = snd (report B W err []))
  /\ (env_defined env = true -> reporters_ok W ->
      fst (run env codes B W entry)
      = inr {| response_message := "Message received" |}).
Proof.
  intros Hthrow. unfold run. cbv zeta.
  destruct (env_defined env) eqn:Henv.
  - rewrite receiveMessagePreview_trace by exact Henv.
    rewrite try_block_eq, Hthrow.
    destruct (report_trace B W err []) as (evs & Hevs & Hdel & Hres).
    rewrite Hevs. cbn [app].
    split; [exact Hdel|]. split; [exact Hres|]. split; [reflexivity|].
    intros _ Hok. rewrite receiveMessagePreview_result by assumption.
    rewrite try_block_eq, Hthrow. reflexivity.
  - rewrite receiveMessagePreview_unset by exact Henv.
    cbn [snd]. repeat split; intros; discriminate.
Qed.

(** The report of an error that is not a [WhatsAppError]. *)
Lemma report_unclassified (err : Exn) (tr : Trace) :
  instanceof_WhatsAppError err = false ->
  exists rest,
    snd (report B W err tr)
    = tr ++ Call_console_log [JString "Sending unkown error to Sentry"]
           :: Call_parseUnknownError err :: rest
    /\ (reporters_ok W ->
        exists details,
          rest = [Call_console_log [JString "details"; details];
                  Call_Sentry_addBreadcrumb
                    (if typeof_object details && truthy details
                     then details
                     else JObject [("details", details)]);
                  Call_Sentry_captureException err]).
Proof.
  assert (unclassified :
    exists rest,
      snd ((console_log [JString "Sending unkown error to Sentry"] ;;
            parsed <- parseUnknownError W err ;;
            let details := safeJsonParse B parsed in
            console_log [JString "details"; details] ;;
            Sentry_addBreadcrumb W
              (if typeof_object details && truthy details
               then details
               else JObject [("details", details)]) ;;
            Sentry_captureException W err) tr)
      = tr ++ Call_console_log [JString "Sending unkown error to Sentry"]
             :: Call_parseUnknownError err :: rest
      /\ (reporters_ok W ->
          exists details,
            rest = [Call_console_log [JString "details"; details];
                    Call_Sentry_addBreadcrumb
                      (if typeof_object details && truthy details
                       then details
                       else JObject [("details", details)]);
                    Call_Sentry_captureException err])).
  { unfold bind, console_log, parseUnknownError, Sentry_addBreadcrumb,
      Sentry_captureException, call.
    destruct (parseUnknownError_outcome W err) as [e'|d] eqn:Hparse; simpl.
    - exists []. rewrite <- app_assoc. split; [reflexivity|].
      intros (_ & Hp & _). destruct (Hp err) as [d Hd]. congruence.
    - destruct (addBreadcrumb_outcome W _) eqn:Hcrumb; simpl.
      + eexists. rewrite <- !app_assoc. split; [reflexivity|].
        intros (_ & _ & Hc & _). rewrite Hc in Hcrumb. discriminate.
      + destruct (captureException_outcome W err); simpl;
          eexists; rewrite <- !app_assoc;
          (split; [reflexivity|]); intros _; eexists; reflexivity. }
  destruct err as [c m|m d|m|v]; intros Hinst;
    try exact unclassified; discriminate.
Qed.

End StatusErrors.

(** C2.  When the first error of the first status carries the code of
    "Could not send message to unengaged user", [processErrors] calls
    [deleteSession] on ["wa-preview-" + recipient_id] and throws only
    once that call is over: the classified [WhatsAppError] when the
    deletion completed, the deletion's own exception otherwise.  With the
    environment value set, the handler's invocation holds exactly that
    one deletion, as its first call, and no flow resumption. *)
Theorem unengaged_user_deletes_session :
  forall (env : Env) (codes : IncomingWebhookErrorCodes) (B : Builtins)
         (W : World) (entry : list Entry) (st : Status)
         (errs : list Error) (error : Error),
    env_defined env = true ->
    first_status entry = Some st ->
    errors st = Some errs ->
    Array_at errs 0 = Some error ->
    code error = Could_not_send_message_to_unengaged_user codes ->
    let sid := ("wa-preview-" ++ recipient_id st)%string in
    (forall tr,
        processErrors codes B W entry tr
        = (inl match deleteSession_outcome W sid with
               | None =>
                   WhatsAppError "Could not send message to unengaged user" None
               | Some failure => failure
               end,
           tr ++ [Call_deleteSession sid]))
    /\ deleteSession_calls (snd (run env codes B W entry)) = [sid]
    /\ resumeWhatsAppFlow_calls (snd (run env codes B W entry)) = []
    /\ exists reports,
        snd (run env codes B W entry) = Call_deleteSession sid :: reports.
Proof.
  intros env codes B W entry st errs error Henv Hst Herrs Hfirst Hcode sid.
  assert (Hthrow : forall tr,
             processErrors codes B W entry tr
             = (inl match deleteSession_outcome W sid with
                    | None =>
                        WhatsAppError
                          "Could not send message to unengaged user" None
                    | Some failure => failure
                    end,
                tr ++ [Call_deleteSession sid])).
  { intros tr. unfold processErrors. rewrite Hst, Herrs, Hfirst, Hcode.
    rewrite Z.eqb_refl. unfold bind, deleteSession. rewrite call_eq.
    unfold whatsAppPreviewSessionIdPrefix. fold sid.
    destruct (deleteSession_outcome W sid); reflexivity. }
  split; [exact Hthrow|].
  unfold run. rewrite receiveMessagePreview_trace by exact Henv.
  rewrite try_block_eq, Hthrow. cbn [app].
  destruct (report_trace B W
              match deleteSession_outcome W sid with
              | None =>
                  WhatsAppError "Could not send message to unengaged user" None
              | Some failure => failure
              end [Call_deleteSession sid]) as (evs & -> & Hdel & Hres).
  rewrite deleteSession_calls_app, resumeWhatsAppFlow_calls_app, Hdel, Hres.
  split; [reflexivity|]. split; [reflexivity|].
  exists evs. reflexivity.
Qed.

Lemma unengaged_user_deletes_session_witness :
  deleteSession_calls
    (snd (run Sample.env_set Sample.codes Sample.builtins Sample.world_up
            (Sample.status_with [Sample.error_of 131047; Sample.error_of 7])))
  = ["wa-preview-33612345678"]
  /\ resumeWhatsAppFlow_calls
       (snd (run Sample.env_set Sample.codes Sample.builtins Sample.world_up
               (Sample.status_with [Sample.error_of 131047; Sample.error_of 7])))
     = [].
Proof.
  destruct (unengaged_user_deletes_session Sample.env_set Sample.codes
              Sample.builtins Sample.world_up
              (Sample.status_with [Sample.error_of 131047; Sample.error_of 7])
              (Sample.failed_status [Sample.error_of 131047; Sample.error_of 7])
              [Sample.error_of 131047; Sample.error_of 7]
              (Sample.error_of 131047))
    as (_ & Hdel & Hres & _).
  - reflexivity.
  - reflexivity.
  - reflexivity.
  - reflexivity.
  - reflexivity.
  - split; [exact Hdel | exact Hres].
Defined.

(** C5.  When the first status has an [errors] field that is empty,
    [processErrors] throws, without any call, a plain [Error] (not a
    [WhatsAppError]) whose message carries the serialised status.  The
    handler then takes the unclassified branch of its [catch] block; it
    reaches neither the session store nor the flow engine; and, with the
    environment value set and telemetry calls that complete, it hands that
    error to [Sentry.captureException] and returns
    [{message: "Message received"}]. *)
Theorem empty_errors_reported_unclassified :
  forall (env : Env) (codes : IncomingWebhookErrorCodes) (B : Builtins)
         (W : World) (entry : list Entry) (st : Status),
    first_status entry = Some st ->
    errors st = Some [] ->
    let err :=
      JsError ("WA empty errors: " ++ JSON_stringify_status B st)%string in
    (forall tr, processErrors codes B W entry tr = (inl err, tr))
    /\ instanceof_WhatsAppError err = false
    /\ deleteSession_calls (snd (run env codes B W entry)) = []
    /\ resumeWhatsAppFlow_calls (snd (run env codes B W entry)) = []
    /\ (env_defined env = true ->
        exists rest,
          snd (run env codes B W entry)
          = Call_console_log [JString "Sending unkown error to Sentry"]
              :: Call_parseUnknownError err :: rest)
    /\ (env_defined env = true -> reporters_ok W ->
        fst (run env codes B W entry)
        = inr {| response_message := "Message received" |}
        /\ In (Call_Sentry_captureException err)
             (snd (run env codes B W entry))).
Proof.
  intros env codes B W entry st Hst Herrs err.
  assert (Hthrow : forall tr, processErrors codes B W entry tr = (inl err, tr)).
  { intros tr. unfold processErrors. rewrite Hst, Herrs. reflexivity. }
  destruct (thrown_without_call env codes B W entry err Hthrow)
    as (Hdel & Hres & Htrace & Hfst).
  destruct (report_unclassified B W err [] (eq_refl _)) as (rest & Hrest & Hok).
  split; [exact Hthrow|]. split; [reflexivity|].
  split; [exact Hdel|]. split; [exact Hres|]. split.
  - intros Henv. exists rest. rewrite (Htrace Henv). exact Hrest.
  - intros Henv Hrep. split; [exact (Hfst Henv Hrep)|].
    rewrite (Htrace Henv), Hrest. destruct (Hok Hrep) as [details ->].
    cbn [app]. right; right; right; right; left. reflexivity.
Qed.

Lemma empty_errors_reported_unclassified_witness :
  let err :=
    JsError ("WA empty errors: "
               ++ JSON_stringify_status Sample.builtins
                    (Sample.failed_status []))%string in
  fst (run Sample.env_set Sample.codes Sample.builtins Sample.world_up
         (Sample.status_with []))
  = inr {| response_message := "Message received" |}
  /\ In (Call_Sentry_captureException err)
       (snd (run Sample.env_set Sample.codes Sample.builtins Sample.world_up
               (Sample.status_with []))).
Proof.
  intros err.
  destruct (empty_errors_reported_unclassified Sample.env_set Sample.codes
              Sample.builtins Sample.world_up (Sample.status_with [])
              (Sample.failed_status []))
    as (_ & _ & _ & _ & _ & Hack).
  - reflexivity.
  - reflexivity.
  - apply Hack; [reflexivity | exact sample_reporters_up].
Defined.

(** C6.  When the code of the first error of the first status is none of
    the three known codes, [processErrors] throws, without any call, a
    plain [Error] (not a [WhatsAppError]) whose message carries the
    serialised [errors] array.  The invocation reaches neither the session
    store nor the flow engine; the handler takes the unclassified branch
    of its [catch] block and, with the environment value set and
    telemetry calls that complete, returns [{message: "Message received"}]. *)
Theorem unknown_code_reported_unclassified :
  forall (env : Env) (codes : IncomingWebhookErrorCodes) (B : Builtins)
         (W : World) (entry : list Entry) (st : Status)
         (errs : list Error) (error : Error),
    first_status entry = Some st ->
    errors st = Some errs ->
    Array_at errs 0 = Some error ->
    code error <> Could_not_send_message_to_unengaged_user codes ->
    code error <> Message_undeliverable codes ->
    code error <> Media_upload_error codes ->
    let err :=
      JsError ("WA unknown incoming errors: "
                 ++ JSON_stringify_errors B errs)%string in
    (forall tr, processErrors codes B W entry tr = (inl err, tr))
    /\ instanceof_WhatsAppError err = false
    /\ deleteSession_calls (snd (run env codes B W entry)) = []
    /\ resumeWhatsAppFlow_calls (snd (run env codes B W entry)) = []
    /\ (env_defined env = true ->
        exists rest,
          snd (run env codes B W entry)
          = Call_console_log [JString "Sending unkown error to Sentry"]
              :: Call_parseUnknownError err :: rest)
    /\ (env_defined env = true -> reporters_ok W ->
        fst (run env codes B W entry)
        = inr {| response_message := "Message received" |}
        /\ In (Call_Sentry_captureException err)
             (snd (run env codes B W entry))).
Proof.
  intros env codes B W entry st errs error Hst Herrs Hfirst H1 H2 H3 err.
  apply Z.eqb_neq in H1, H2, H3.
  assert (Hthrow : forall tr, processErrors codes B W entry tr = (inl err, tr)).
  { intros tr. unfold processErrors.
    rewrite Hst, Herrs, Hfirst, H1, H2, H3. reflexivity. }
  destruct (thrown_without_call env codes B W entry err Hthrow)
    as (Hdel & Hres & Htrace & Hfst).
  destruct (report_unclassified B W err [] (eq_refl _)) as (rest & Hrest & Hok).
  split; [exact Hthrow|]. split; [reflexivity|].
  split; [exact Hdel|]. split; [exact Hres|]. split.
  - intros Henv. exists rest. rewrite (Htrace Henv). exact Hrest.
  - intros Henv Hrep. split; [exact (Hfst Henv Hrep)|].
    rewrite (Htrace Henv), Hrest. destruct (Hok Hrep) as [details ->].
    cbn [app]. right; right; right; right; left. reflexivity.
Qed.

Lemma unknown_code_reported_unclassified_witness :
  let err :=
    JsError ("WA unknown incoming errors: "
               ++ JSON_stringify_errors Sample.builtins
                    [Sample.error_of 1; Sample.error_of 2])%string in
  deleteSession_calls
    (snd (run Sample.env_set Sample.codes Sample.builtins Sample.world_up
            (Sample.status_with [Sample.error_of 1; Sample.error_of 2]))) = []
  /\ fst (run Sample.env_set Sample.codes Sample.builtins Sample.world_up
            (Sample.status_with [Sample.error_of 1; Sample.error_of 2]))
     = inr {| response_message := "Message received" |}
  /\ In (Call_Sentry_captureException err)
       (snd (run Sample.env_set Sample.codes Sample.builtins Sample.world_up
               (Sample.status_with [Sample.error_of 1; Sample.error_of 2]))).
Proof.
  intros err.
  destruct (unknown_code_reported_unclassified Sample.env_set Sample.codes
              Sample.builtins Sample.world_up
              (Sample.status_with [Sample.error_of 1; Sample.error_of 2])
              (Sample.failed_status [Sample.error_of 1; Sample.error_of 2])
              [Sample.error_of 1; Sample.error_of 2] (Sample.error_of 1))
    as (_ & _ & Hdel & _ & _ & Hack).
  - reflexivity.
  - reflexivity.
  - reflexivity.
  - discriminate.
  - discriminate.
  - discriminate.
  - split; [exact Hdel|].
    apply Hack; [reflexivity | exact sample_reporters_up].
Defined.

(** C10.  When the first status carries an [errors] field, whatever its
    length and codes, [processErrors] throws, so the statements after it
    in the [try] block never run and [resumeWhatsAppFlow] is not called.
    Hence no invocation holds both a session deletion and a flow
    resumption. *)
Theorem status_errors_preempt_resumption :
  forall (env : Env) (codes : IncomingWebhookErrorCodes) (B : Builtins)
         (W : World) (entry : list Entry),
    (forall errs,
        first_status_errors entry = Some errs ->
        (forall tr, exists e tr',
            processErrors codes B W entry tr = (inl e, tr'))
        /\ (forall tr, exists e tr',
               try_block codes B W entry tr = (inl e, tr')
               /\ resumeWhatsAppFlow_calls tr' = resumeWhatsAppFlow_calls tr)
        /\ resumeWhatsAppFlow_calls (snd (run env codes B W entry)) = [])
    /\ (deleteSession_calls (snd (run env codes B W entry)) = []
        \/ resumeWhatsAppFlow_calls (snd (run env codes B W entry)) = []).
Proof.
  intros env codes B W entry. split.
  - intros errs Herrs. split; [|split].
    + intros tr. unfold first_status_errors in Herrs.
      destruct (first_status entry) as [st|] eqn:Hst; [|discriminate].
      destruct (processErrors_throws codes B W entry st errs tr Hst Herrs)
        as (e & evs & Heq & _).
      exists e, (tr ++ evs). exact Heq.
    + intros tr. unfold first_status_errors in Herrs.
      destruct (first_status entry) as [st|] eqn:Hst; [|discriminate].
      destruct (processErrors_throws codes B W entry st errs tr Hst Herrs)
        as (e & evs & Heq & Hres & _).
      exists e, (tr ++ evs). rewrite try_block_eq, Heq.
      split; [reflexivity|].
      rewrite resumeWhatsAppFlow_calls_app, Hres. apply app_nil_r.
    + exact (status_errors_no_resumption env codes B W entry errs Herrs).
  - destruct (first_status_errors entry) as [errs|] eqn:Herrs.
    + right. exact (status_errors_no_resumption env codes B W entry errs Herrs).
    + left. exact (no_status_errors_no_deletion env codes B W entry Herrs).
Qed.

Lemma status_errors_preempt_resumption_witness :
  resumeWhatsAppFlow_calls
    (snd (run Sample.env_set Sample.codes Sample.builtins Sample.world_up
            (Sample.payload_of
               {| statuses := Some [Sample.failed_status
                                      [Sample.error_of 131026]];
                  messages := Some [Sample.text_message];
                  contacts := Some [Sample.john] |}))) = [].
Proof.
  destruct (status_errors_preempt_resumption Sample.env_set Sample.codes
              Sample.builtins Sample.world_up
              (Sample.payload_of
                 {| statuses := Some [Sample.failed_status
                                        [Sample.error_of 131026]];
                    messages := Some [Sample.text_message];
                    contacts := Some [Sample.john] |}))
    as (Hpre & _).
  destruct (Hpre [Sample.error_of 131026]) as (_ & _ & Hres).
  - reflexivity.
  - exact Hres.
Defined.

(** ** Payloads without an actionable message *)

Lemma no_actionable_message (entry : list Entry) :
  messages_absent_or_only_reaction entry = true ->
  first_message entry = None
  \/ exists m, first_message entry = Some m /\ (type m =? "reaction") = true.
Proof.
  unfold messages_absent_or_only_reaction, first_message.
  destruct (first_value entry) as [v|]; [|left; reflexivity].
  destruct (messages v) as [[|m [|m' ms]]|]; intros H;
    try discriminate; [|left; reflexivity].
  right. exists m. split; [reflexivity | exact H].
Qed.

(** A delivery failure, as the provider sends it: a status with an
    error and no [messages].  The handler answers "Message received". *)
Example undeliverable_status_run :
  run Sample.env_set Sample.codes Sample.builtins Sample.world_up
    (Sample.status_with [Sample.error_of 131026])
  = (inr {| response_message := "Message received" |},
     [Call_Sentry_captureMessage "Message undeliverable" None]).
Proof. reflexivity. Qed.

(** C4, as stated, fails: [messages] is absent from this payload, its
    first status carries an error, and the response is not
    "No message content found". *)
Lemma no_message_with_status_error_counterexample :
  ~ (messages_absent_or_only_reaction
       (Sample.status_with [Sample.error_of 131026]) = true ->
     fst (run Sample.env_set Sample.codes Sample.builtins Sample.world_up
            (Sample.status_with [Sample.error_of 131026]))
     = inr {| response_message := "No message content found" |}
     /\ resumeWhatsAppFlow_calls
          (snd (run Sample.env_set Sample.codes Sample.builtins
                  Sample.world_up
                  (Sample.status_with [Sample.error_of 131026]))) = []).
Proof.
  intros H. destruct (H eq_refl) as [Hresp _].
  rewrite undeliverable_status_run in Hresp. discriminate.
Qed.

(** C4, amended.  When [messages] is absent from the first change of the
    first entry, or holds a single reaction, no invocation calls
    [resumeWhatsAppFlow]; and when moreover the first status carries no
    [errors] field and the environment value is set, the handler returns
    [{message: "No message content found"}] without any call. *)
Theorem no_actionable_message_acknowledged :
  forall (env : Env) (codes : IncomingWebhookErrorCodes) (B : Builtins)
         (W : World) (entry : list Entry),
    messages_absent_or_only_reaction entry = true ->
    resumeWhatsAppFlow_calls (snd (run env codes B W entry)) = []
    /\ (env_defined env = true ->
        first_status_errors entry = None ->
        run env codes B W entry
        = (inr {| response_message := "No message content found" |}, [])).
Proof.
  intros env codes B W entry Hmsg.
  apply no_actionable_message in Hmsg.
  assert (Hret : env_defined env = true ->
                 first_status_errors entry = None ->
                 run env codes B W entry
                 = (inr {| response_message := "No message content found" |},
                    [])).
  { intros Henv Hst. unfold run.
    rewrite receiveMessagePreview_eq by exact Henv.
    rewrite try_block_eq, processErrors_returns by exact Hst.
    destruct Hmsg as [-> | (m & -> & ->)]; reflexivity. }
  split; [|exact Hret].
  destruct (first_status_errors entry) as [errs|] eqn:Hst.
  - exact (status_errors_no_resumption env codes B W entry errs Hst).
  - destruct (env_defined env) eqn:Henv.
    + rewrite (Hret eq_refl eq_refl). reflexivity.
    + unfold run. rewrite receiveMessagePreview_unset by exact Henv.
      reflexivity.
Qed.

Lemma no_actionable_message_acknowledged_witness :
  run Sample.env_set Sample.codes Sample.builtins Sample.world_up
    Sample.inbound_reaction
  = (inr {| response_message := "No message content found" |}, []).
Proof.
  destruct (no_actionable_message_acknowledged Sample.env_set Sample.codes
              Sample.builtins Sample.world_up Sample.inbound_reaction)
    as (_ & Hret).
  - reflexivity.
  - apply Hret; reflexivity.
Defined.

(** ** What the handler reads of a payload *)

Section Consulted.

Context (env : Env) (codes : IncomingWebhookErrorCodes)
        (B : Builtins) (W : World).

Lemma processErrors_eq (entry : list Entry) :
  processErrors codes B W entry
  = processErrors_of_status codes B W (first_status entry).
Proof. reflexivity. Qed.

Lemma processErrors_of_consulted_status (st : Status) :
  processErrors_of_status codes B W (Some st)
  = processErrors_of_status codes B W (Some (consulted_status codes st)).
Proof.
  destruct st as [rid [[|error rest]|] fields]; try reflexivity.
  unfold consulted_status. cbn [errors code].
  destruct (known_code codes (code error)) eqn:Hknown; [|reflexivity].
  unfold processErrors_of_status, first_error_only.
  cbn [errors recipient_id option_map firstn].
  change (Array_at (error :: rest) 0) with (Some error).
  change (Array_at [error] 0) with (Some error).
  cbv beta iota.
  unfold known_code in Hknown.
  destruct (code error =? Could_not_send_message_to_unengaged_user codes)%Z;
    [reflexivity|].
  destruct (code error =? Message_undeliverable codes)%Z; [reflexivity|].
  destruct (code error =? Media_upload_error codes)%Z; [reflexivity|].
  discriminate.
Qed.

Lemma processErrors_consulted (entry1 entry2 : list Entry) :
  option_map (consulted_status codes) (first_status entry1)
  = option_map (consulted_status codes) (first_status entry2) ->
  processErrors codes B W entry1 = processErrors codes B W entry2.
Proof.
  rewrite !processErrors_eq.
  destruct (first_status entry1) as [st1|], (first_status entry2) as [st2|];
    cbn [option_map]; intros H; try discriminate; [|reflexivity].
  injection H as H.
  rewrite (processErrors_of_consulted_status st1),
    (processErrors_of_consulted_status st2), H.
  reflexivity.
Qed.

Lemma extractMessageData_consulted (entry1 entry2 : list Entry) :
  first_message entry1 = first_message entry2 ->
  first_contact entry1 = first_contact entry2 ->
  extractMessageData entry1 = extractMessageData entry2.
Proof.
  intros Hm Hc. unfold extractMessageData. rewrite Hm, Hc. reflexivity.
Qed.

End Consulted.

(** Two payloads that agree on the first status cut down to its first
    error, on the first message and on the first contact, and differ in
    the second error. *)
Example first_elements_agree :
  first_elements (Sample.status_with [Sample.error_of 1])
  = first_elements (Sample.status_with [Sample.error_of 1; Sample.error_of 2]).
Proof. reflexivity. Qed.

(** C8, as stated, fails: on these two payloads the handler hands
    different errors to the telemetry calls, since the unknown code makes
    it serialise the whole [errors] array. *)
Lemma later_error_changes_report_counterexample :
  ~ (first_elements (Sample.status_with [Sample.error_of 1])
     = first_elements
         (Sample.status_with [Sample.error_of 1; Sample.error_of 2]) ->
     run Sample.env_set Sample.codes Sample.builtins Sample.world_up
       (Sample.status_with [Sample.error_of 1])
     = run Sample.env_set Sample.codes Sample.builtins Sample.world_up
         (Sample.status_with [Sample.error_of 1; Sample.error_of 2])).
Proof.
  intros H. specialize (H first_elements_agree).
  vm_compute in H. discriminate H.
Qed.

(** C8, amended.  The handler's behaviour, from any trace and in any
    world, is a function of what [consulted] keeps of the payload: the
    first status, the first message and the first contact of the first
    change of the first entry, where the errors of that status after the
    first are kept only if the first error's code is not a known one.
    Later entries, changes, statuses, messages and contacts are not part
    of it. *)
Theorem handler_depends_on_consulted :
  forall (env : Env) (codes : IncomingWebhookErrorCodes) (B : Builtins)
         (W : World),
    (forall (entry1 entry2 : list Entry),
        consulted codes entry1 = consulted codes entry2 ->
        forall tr,
          receiveMessagePreview env codes B W entry1 tr
          = receiveMessagePreview env codes B W entry2 tr)
    /\ (forall st sts m ms c cs changes' entries',
          consulted codes
            ({| changes :=
                  {| value := {| statuses := Some (st :: sts);
                                 messages := Some (m :: ms);
                                 contacts := Some (c :: cs) |} |}
                    :: changes' |} :: entries')
          = (Some (consulted_status codes st), Some m, Some c))
    /\ (forall st error errs,
          errors st = Some (error :: errs) ->
          known_code codes (code error) = true ->
          consulted_status codes st
          = {| recipient_id := recipient_id st;
               errors := Some [error];
               status_fields := status_fields st |}).
Proof.
  intros env codes B W. split; [|split].
  - intros entry1 entry2 H tr. unfold consulted in H.
    injection H as Hst Hm Hc.
    unfold receiveMessagePreview, try_block.
    rewrite (processErrors_consulted codes B W entry1 entry2 Hst).
    rewrite (extractMessageData_consulted entry1 entry2 Hm Hc).
    reflexivity.
  - reflexivity.
  - intros st error errs Herrs Hknown. unfold consulted_status.
    rewrite Herrs, Hknown. unfold first_error_only. rewrite Herrs.
    reflexivity.
Qed.

Lemma handler_depends_on_consulted_witness :
  run Sample.env_set Sample.codes Sample.builtins Sample.world_down
    (Sample.status_with [Sample.error_of 131047])
  = run Sample.env_set Sample.codes Sample.builtins Sample.world_down
      (Sample.status_with [Sample.error_of 131047; Sample.error_of 2]
         ++ Sample.inbound_text).
Proof.
  destruct (handler_depends_on_consulted Sample.env_set Sample.codes
              Sample.builtins Sample.world_down) as (Hsame & _).
  apply (Hsame (Sample.status_with [Sample.error_of 131047])
           (Sample.status_with [Sample.error_of 131047; Sample.error_of 2]
              ++ Sample.inbound_text)).
  reflexivity.
Defined.

(** * Further properties of the handler *)

(** ** The [catch] block, call by call *)

Section ReportCalls.

Context (B : Builtins) (W : World).

Lemma report_classified (m : string) (d : option JsValue) (tr : Trace) :
  report B W (WhatsAppError m d) tr
  = (match captureMessage_outcome W m d with
     | Some e => inl e
     | None => inr tt
     end, tr ++ [Call_Sentry_captureMessage m d]).
Proof. unfold report, Sentry_captureMessage. apply call_eq. Qed.

Lemma report_unclassified_eq (err : Exn) (tr : Trace) :
  instanceof_WhatsAppError err = false ->
  report B W err tr
  = match parseUnknownError_outcome W err with
    | inl e' =>
        (inl e',
         tr ++ [Call_console_log [JString "Sending unkown error to Sentry"];
                Call_parseUnknownError err])
    | inr parsed =>
        let details := safeJsonParse B parsed in
        match addBreadcrumb_outcome W (breadcrumb_data details) with
        | Some e' =>
            (inl e',
             tr ++ [Call_console_log [JString "Sending unkown error to Sentry"];
                    Call_parseUnknownError err;
                    Call_console_log [JString "details"; details];
                    Call_Sentry_addBreadcrumb (breadcrumb_data details)])
        | None =>
            (match captureException_outcome W err with
             | Some e' => inl e'
             | None => inr tt
             end,
             tr ++ [Call_console_log [JString "Sending unkown error to Sentry"];
                    Call_parseUnknownError err;
                    Call_console_log [JString "details"; details];
                    Call_Sentry_addBreadcrumb (breadcrumb_data details);
                    Call_Sentry_captureException err])
        end
    end.
Proof.
  assert (unclassified :
    (console_log [JString "Sending unkown error to Sentry"] ;;
     parsed <- parseUnknownError W err ;;
     let details := safeJsonParse B parsed in
     console_log [JString "details"; details] ;;
     Sentry_addBreadcrumb W
       (if typeof_object details && truthy details
        then details
        else JObject [("details", details)]) ;;
     Sentry_captureException W err) tr
    = match parseUnknownError_outcome W err with
      | inl e' =>
          (inl e',
           tr ++ [Call_console_log [JString "Sending unkown error to Sentry"];
                  Call_parseUnknownError err])
      | inr parsed =>
          let details := safeJsonParse B parsed in
          match addBreadcrumb_outcome W (breadcrumb_data details) with
          | Some e' =>
              (inl e',
               tr ++ [Call_console_log
                        [JString "Sending unkown error to Sentry"];
                      Call_parseUnknownError err;
                      Call_console_log [JString "details"; details];
                      Call_Sentry_addBreadcrumb (breadcrumb_data details)])
          | None =>
              (match captureException_outcome W err with
               | Some e' => inl e'
               | None => inr tt
               end,
               tr ++ [Call_console_log
                        [JString "Sending unkown error to Sentry"];
                      Call_parseUnknownError err;
                      Call_console_log [JString "details"; details];
                      Call_Sentry_addBreadcrumb (breadcrumb_data details);
                      Call_Sentry_captureException err])
          end
      end).
  { unfold bind, console_log, parseUnknownError, Sentry_addBreadcrumb,
      Sentry_captureException, call, breadcrumb_data.
    destruct (parseUnknownError_outcome W err) as [e'|parsed]; cbv zeta.
    - rewrite <- app_assoc. reflexivity.
    - destruct (addBreadcrumb_outcome W _).
      + rewrite <- !app_assoc. reflexivity.
      + destruct (captureException_outcome W err);
          rewrite <- !app_assoc; reflexivity. }
  destruct err as [c m|m d|m|v]; intros Hinst;
    try exact unclassified; discriminate.
Qed.

(** The [catch] block only appends to the trace, and what it appends
    does not depend on what came before. *)
Lemma report_frame (err : Exn) (tr : Trace) :
  report B W err tr
  = (fst (report B W err []), tr ++ snd (report B W err [])).
Proof.
  destruct (instanceof_WhatsAppError err) eqn:Hinst.
  - destruct err as [c m|m d|m|v]; try discriminate.
    rewrite !report_classified. reflexivity.
  - rewrite !(report_unclassified_eq err) by exact Hinst.
    destruct (parseUnknownError_outcome W err) as [e'|parsed]; cbv zeta.
    + reflexivity.
    + destruct (addBreadcrumb_outcome W _); [reflexivity|].
      destruct (captureException_outcome W err); reflexivity.
Qed.

Lemma report_events_telemetry (err : Exn) :
  forallb is_telemetry (snd (report B W err [])) = true.
Proof.
  destruct (instanceof_WhatsAppError err) eqn:Hinst.
  - destruct err as [c m|m d|m|v]; try discriminate.
    rewrite report_classified. reflexivity.
  - rewrite (report_unclassified_eq err) by exact Hinst.
    destruct (parseUnknownError_outcome W err) as [e'|parsed]; cbv zeta.
    + reflexivity.
    + destruct (addBreadcrumb_outcome W _); [reflexivity|].
      destruct (captureException_outcome W err); reflexivity.
Qed.

Lemma report_events_one_report (err : Exn) :
  (List.length (error_reports (snd (report B W err []))) <= 1)%nat.
Proof.
  destruct (instanceof_WhatsAppError err) eqn:Hinst.
  - destruct err as [c m|m d|m|v]; try discriminate.
    rewrite report_classified. simpl. lia.
  - rewrite (report_unclassified_eq err) by exact Hinst.
    destruct (parseUnknownError_outcome W err) as [e'|parsed]; cbv zeta.
    + simpl. lia.
    + destruct (addBreadcrumb_outcome W _); [simpl; lia|].
      destruct (captureException_outcome W err); simpl; lia.
Qed.



(** An exception that leaves the [catch] block is the outcome of the
    telemetry call made last. *)
Lemma report_failure (err e : Exn) :
  fst (report B W err []) = inl e ->
  exists tr ev,
    snd (report B W err []) = tr ++ [ev] /\ telemetry_failure W ev e.
Proof.
  destruct (instanceof_WhatsAppError err) eqn:Hinst.
  - destruct err as [c m|m d|m|v]; try discriminate.
    rewrite report_classified. cbn [fst snd].
    destruct (captureMessage_outcome W m d) as [e'|] eqn:Hout;
      intros H; [|discriminate].
    injection H as <-. exists [], (Call_Sentry_captureMessage m d).
    split; [reflexivity | exact Hout].
  - rewrite (report_unclassified_eq err) by exact Hinst.
    destruct (parseUnknownError_outcome W err) as [e'|parsed] eqn:Hparse;
      cbv zeta.
    + cbn [fst snd]. intros H. injection H as <-.
      exists [Call_console_log [JString "Sending unkown error to Sentry"]],
        (Call_parseUnknownError err).
      split; [reflexivity | exact Hparse].
    + destruct (addBreadcrumb_outcome W _) as [e'|] eqn:Hcrumb.
      * cbn [fst snd]. intros H. injection H as <-.
        exists [Call_console_log [JString "Sending unkown error to Sentry"];
                Call_parseUnknownError err;
                Call_console_log [JString "details"; safeJsonParse B parsed]],
          (Call_Sentry_addBreadcrumb
             (breadcrumb_data (safeJsonParse B parsed))).
        split; [reflexivity | exact Hcrumb].
      * destruct (captureException_outcome W err) as [e'|] eqn:Hexn;
          cbn [fst snd]; intros H; [|discriminate].
        injection H as <-.
        exists [Call_console_log [JString "Sending unkown error to Sentry"];
                Call_parseUnknownError err;
                Call_console_log [JString "details"; safeJsonParse B parsed];
                Call_Sentry_addBreadcrumb
                  (breadcrumb_data (safeJsonParse B parsed))],
          (Call_Sentry_captureException err).
        split; [reflexivity | exact Hexn].
Qed.

End ReportCalls.

(** ** One invocation, case by case *)

Section Invocation.

Context (env : Env) (codes : IncomingWebhookErrorCodes)
        (B : Builtins) (W : World).

Lemma processErrors_empty (entry : list Entry) (st : Status)
      (errs : list Error) (tr : Trace) :
  first_status entry = Some st ->
  errors st = Some errs ->
  Array_at errs 0 = None ->
  processErrors codes B W entry tr
  = (inl (JsError ("WA empty errors: " ++ JSON_stringify_status B st)%string),
     tr).
Proof.
  intros Hst Herrs Hnone. unfold processErrors.
  rewrite Hst, Herrs, Hnone. reflexivity.
Qed.

Lemma processErrors_unengaged (entry : list Entry) (st : Status)
      (errs : list Error) (error : Error) (tr : Trace) :
  first_status entry = Some st ->
  errors st = Some errs ->
  Array_at errs 0 = Some error ->
  code error = Could_not_send_message_to_unengaged_user codes ->
  processErrors codes B W entry tr
  = (inl match deleteSession_outcome W
                 (whatsAppPreviewSessionIdPrefix ++ recipient_id st)%string with
         | None =>
             WhatsAppError "Could not send message to unengaged user" None
         | Some failure => failure
         end,
     tr ++ [Call_deleteSession
              (whatsAppPreviewSessionIdPrefix ++ recipient_id st)%string]).
Proof.
  intros Hst Herrs Hfirst Hcode. unfold processErrors.
  rewrite Hst, Herrs, Hfirst, Hcode, Z.eqb_refl.
  unfold bind, deleteSession. rewrite call_eq.
  destruct (deleteSession_outcome W _); reflexivity.
Qed.

Lemma processErrors_other (entry : list Entry) (st : Status)
      (errs : list Error) (error : Error) (tr : Trace) :
  first_status entry = Some st ->
  errors st = Some errs ->
  Array_at errs 0 = Some error ->
  code error <> Could_not_send_message_to_unengaged_user codes ->
  processErrors codes B W entry tr
  = (inl (if (code error =? Message_undeliverable codes)%Z
          then WhatsAppError "Message undeliverable" None
          else if (code error =? Media_upload_error codes)%Z
          then WhatsAppError "Media upload error"
                 (Some (JObject
                          [("reason", nullish (error_data error) JUndefined)]))
          else JsError ("WA unknown incoming errors: "
                          ++ JSON_stringify_errors B errs)%string),
     tr).
Proof.
  intros Hst Herrs Hfirst Hcode. apply Z.eqb_neq in Hcode.
  unfold processErrors. rewrite Hst, Herrs, Hfirst, Hcode.
  destruct (code error =? Message_undeliverable codes)%Z; [reflexivity|].
  destruct (code error =? Media_upload_error codes)%Z; reflexivity.
Qed.

Lemma run_caught (entry : list Entry) (err : Exn) (head : Trace) :
  env_defined env = true ->
  try_block codes B W entry [] = (inl err, head) ->
  run env codes B W entry = caught B W err head.
Proof.
  intros Henv Htry. unfold run, caught.
  rewrite receiveMessagePreview_eq by exact Henv.
  rewrite Htry, report_frame.
  destruct (fst (report B W err [])) as [e'|[]]; reflexivity.
Qed.

(** The five ways an invocation can go once the environment value is
    set. *)
Lemma run_shape (entry : list Entry) :
  env_defined env = true ->
  (first_status_errors entry = None
   /\ (first_message entry = None
       \/ exists m, first_message entry = Some m /\ type m = "reaction")
   /\ run env codes B W entry
      = (inr {| response_message := "No message content found" |}, []))
  \/ (first_status_errors entry = None
      /\ exists m,
          first_message entry = Some m /\ type m <> "reaction"
          /\ ((resumeWhatsAppFlow_outcome W (resume_args_of entry m) = None
               /\ run env codes B W entry
                  = (inr {| response_message := "Message received" |},
                     [Call_resumeWhatsAppFlow (resume_args_of entry m)]))
              \/ exists e,
                  resumeWhatsAppFlow_outcome W (resume_args_of entry m) = Some e
                  /\ run env codes B W entry
                     = caught B W e
                         [Call_resumeWhatsAppFlow (resume_args_of entry m)]))
  \/ (exists st errs,
         first_status entry = Some st /\ errors st = Some errs
         /\ ((exists e,
                 (Array_at errs 0 = None
                  \/ exists error,
                      Array_at errs 0 = Some error
                      /\ code error
                         <> Could_not_send_message_to_unengaged_user codes)
                 /\ run env codes B W entry = caught B W e [])
             \/ (exists error,
                    Array_at errs 0 = Some error
                    /\ code error
                       = Could_not_send_message_to_unengaged_user codes
                    /\ run env codes B W entry
                       = caught B W
                           match deleteSession_outcome W
                                   (whatsAppPreviewSessionIdPrefix
                                      ++ recipient_id st)%string with
                           | None =>
                               WhatsAppError
                                 "Could not send message to unengaged user"
                                 None
                           | Some failure => failure
                           end
                           [Call_deleteSession
                              (whatsAppPreviewSessionIdPrefix
                                 ++ recipient_id st)%string]))).
Proof.
  intros Henv.
  destruct (first_status_errors entry) as [errs|] eqn:Hse.
  - right; right. unfold first_status_errors in Hse.
    destruct (first_status entry) as [st|] eqn:Hst; [|discriminate].
    exists st, errs. split; [reflexivity|]. split; [exact Hse|].
    destruct (Array_at errs 0) as [error|] eqn:Hfirst.
    + destruct (Z.eq_dec (code error)
                  (Could_not_send_message_to_unengaged_user codes))
        as [Hcode|Hcode].
      * right. exists error. split; [reflexivity|]. split; [exact Hcode|].
        apply run_caught; [exact Henv|].
        rewrite try_block_eq.
        rewrite (processErrors_unengaged entry st errs error [] Hst Hse
                   Hfirst Hcode).
        reflexivity.
      * left. eexists. split; [right; exists error; split;
                               [reflexivity | exact Hcode]|].
        apply run_caught; [exact Henv|].
        rewrite try_block_eq.
        rewrite (processErrors_other entry st errs error [] Hst Hse
                   Hfirst Hcode).
        reflexivity.
    + left. eexists. split; [left; reflexivity|].
      apply run_caught; [exact Henv|].
      rewrite try_block_eq.
      rewrite (processErrors_empty entry st errs [] Hst Hse Hfirst).
      reflexivity.
  - destruct (first_message entry) as [m|] eqn:Hm.
    + destruct (type m =? "reaction") eqn:Htype.
      * left. split; [reflexivity|].
        split; [right; exists m; split;
                [reflexivity | apply String.eqb_eq; exact Htype]|].
        unfold run. rewrite receiveMessagePreview_eq by exact Henv.
        rewrite try_block_eq, processErrors_returns by exact Hse.
        rewrite Hm, Htype. reflexivity.
      * right; left. split; [reflexivity|]. exists m.
        split; [reflexivity|].
        split; [apply String.eqb_neq; exact Htype|].
        destruct (resumeWhatsAppFlow_outcome W (resume_args_of entry m))
          as [e|] eqn:Hout.
        -- right. exists e. split; [reflexivity|].
           apply run_caught; [exact Henv|].
           rewrite try_block_eq, processErrors_returns by exact Hse.
           rewrite Hm, Htype, Hout. reflexivity.
        -- left. split; [reflexivity|].
           unfold run. rewrite receiveMessagePreview_eq by exact Henv.
           rewrite try_block_eq, processErrors_returns by exact Hse.
           rewrite Hm, Htype, Hout. reflexivity.
    + left. split; [reflexivity|]. split; [left; reflexivity|].
      unfold run. rewrite receiveMessagePreview_eq by exact Henv.
      rewrite try_block_eq, processErrors_returns by exact Hse.
      rewrite Hm. reflexivity.
Qed.

Lemma run_unset (entry : list Entry) :
  env_defined env = false ->
  run env codes B W entry
  = (inl (TRPCError "INTERNAL_SERVER_ERROR"
            "WHATSAPP_PREVIEW_FROM_PHONE_NUMBER_ID is not defined"), []).
Proof. intros Henv. apply receiveMessagePreview_unset. exact Henv. Qed.

End Invocation.

(** ** What every invocation keeps *)

Lemma telemetry_no_calls (tele : Trace) :
  forallb is_telemetry tele = true ->
  deleteSession_calls tele = [] /\ resumeWhatsAppFlow_calls tele = []
  /\ forall ev, In ev tele -> is_telemetry ev = true.
Proof.
  induction tele as [|ev tele IH]; cbn [forallb].
  - intros _. repeat split. intros ev [].
  - intros H. apply andb_true_iff in H. destruct H as [Hev Htele].
    destruct (IH Htele) as (Hdel & Hres & Hall).
    split; [|split].
    + destruct ev; try discriminate; exact Hdel.
    + destruct ev; try discriminate; exact Hres.
    + intros ev' [<-|Hin]; [exact Hev | exact (Hall ev' Hin)].
Qed.

(** Every invocation is at most one call to the session store or to the
    flow engine, and then either nothing more or the [catch] block. *)
Lemma run_decompose (env : Env) (codes : IncomingWebhookErrorCodes)
      (B : Builtins) (W : World) (entry : list Entry) :
  exists head,
    (head = []
     \/ (exists sid, head = [Call_deleteSession sid])
     \/ (exists args, head = [Call_resumeWhatsAppFlow args]))
    /\ ((snd (run env codes B W entry) = head
         /\ (env_defined env = true ->
             exists r, fst (run env codes B W entry) = inr r))
        \/ (env_defined env = true
            /\ exists e, run env codes B W entry = caught B W e head)).
Proof.
  destruct (env_defined env) eqn:Henv.
  - destruct (run_shape env codes B W entry Henv)
      as [(_ & _ & ->)
         |[(_ & m & _ & _ & [(_ & ->)|(e & _ & ->)])
          |(st & errs & _ & _ & [(e & _ & ->)|(error & _ & _ & ->)])]].
    + exists []. split; [left; reflexivity|]. left.
      split; [reflexivity|]. intros _. eexists. reflexivity.
    + eexists. split; [right; right; eexists; reflexivity|]. left.
      split; [reflexivity|]. intros _. eexists. reflexivity.
    + eexists. split; [right; right; eexists; reflexivity|]. right.
      split; [reflexivity|]. exists e. reflexivity.
    + exists []. split; [left; reflexivity|]. right.
      split; [reflexivity|]. exists e. reflexivity.
    + eexists. split; [right; left; eexists; reflexivity|]. right.
      split; [reflexivity|]. eexists. reflexivity.
  - exists []. split; [left; reflexivity|]. left.
    rewrite run_unset by exact Henv. split; [reflexivity|]. discriminate.
Qed.

(** X1.  In every invocation the handler calls the session store or the
    flow engine at most once, and that call is the first one it makes:
    everything after it is telemetry. *)
Theorem one_collaborator_call_then_telemetry :
  forall (env : Env) (codes : IncomingWebhookErrorCodes) (B : Builtins)
         (W : World) (entry : list Entry),
  exists head tele,
    snd (run env codes B W entry) = head ++ tele
    /\ forallb is_telemetry tele = true
    /\ (head = []
        \/ (exists sid, head = [Call_deleteSession sid])
        \/ (exists args, head = [Call_resumeWhatsAppFlow args])).
Proof.
  intros env codes B W entry.
  destruct (run_decompose env codes B W entry)
    as (head & Hhead & [(Htr & _)|(_ & e & Hrun)]).
  - exists head, []. rewrite app_nil_r.
    split; [exact Htr|]. split; [reflexivity | exact Hhead].
  - exists head, (snd (report B W e [])). rewrite Hrun.
    split; [reflexivity|].
    split; [apply report_events_telemetry | exact Hhead].
Qed.

(** X2.  Every invocation sends at most one error report to Sentry:
    one [captureMessage] or one [captureException], never both, never
    two. *)
Theorem at_most_one_error_report :
  forall (env : Env) (codes : IncomingWebhookErrorCodes) (B : Builtins)
         (W : World) (entry : list Entry),
    (List.length (error_reports (snd (run env codes B W entry))) <= 1)%nat.
Proof.
  intros env codes B W entry.
  destruct (run_decompose env codes B W entry)
    as (head & Hhead & [(-> & _)|(_ & e & ->)]).
  - destruct Hhead as [->|[(sid & ->)|(args & ->)]]; simpl; lia.
  - unfold caught, error_reports. cbn [snd]. rewrite filter_app, length_app.
    pose proof (report_events_one_report B W e) as Hone.
    unfold error_reports in Hone.
    destruct Hhead as [->|[(sid & ->)|(args & ->)]]; simpl; lia.
Qed.



(** X4.  An exception leaves the handler in two ways only: the
    configuration error, thrown before any call, or the exception of the
    telemetry call the handler made last.  What the session store or the
    flow engine throws never reaches the caller. *)
Theorem only_telemetry_failures_propagate :
  forall (env : Env) (codes : IncomingWebhookErrorCodes) (B : Builtins)
         (W : World) (entry : list Entry) (e : Exn),
    fst (run env codes B W entry) = inl e ->
    (env_defined env = false
     /\ e = TRPCError "INTERNAL_SERVER_ERROR"
              "WHATSAPP_PREVIEW_FROM_PHONE_NUMBER_ID is not defined"
     /\ snd (run env codes B W entry) = [])
    \/ (env_defined env = true
        /\ exists tr ev,
            snd (run env codes B W entry) = tr ++ [ev]
            /\ telemetry_failure W ev e).
Proof.
  intros env codes B W entry e Hthrow.
  destruct (env_defined env) eqn:Henv.
  - right. split; [reflexivity|].
    destruct (run_decompose env codes B W entry)
      as (head & _ & [(_ & Hret)|(_ & err & Hrun)]).
    + rewrite Henv in Hret. destruct (Hret eq_refl) as [r Hr]. congruence.
    + rewrite Hrun in Hthrow |- *. unfold caught in *. cbn [fst snd] in *.
      destruct (fst (report B W err [])) as [e'|[]] eqn:Hrep; [|discriminate].
      injection Hthrow as <-.
      destruct (report_failure B W err e' Hrep) as (tr & ev & -> & Hev).
      exists (head ++ tr), ev. rewrite app_assoc.
      split; [reflexivity | exact Hev].
  - left. rewrite run_unset in Hthrow |- * by exact Henv.
    cbn [fst snd] in *. injection Hthrow as <-. repeat split.
Qed.

Lemma only_telemetry_failures_propagate_witness :
  exists tr ev,
    snd (run Sample.env_set Sample.codes Sample.builtins Sample.world_mute
           (Sample.status_with [])) = tr ++ [ev]
    /\ telemetry_failure Sample.world_mute ev (JsError "sentry down").
Proof.
  destruct (only_telemetry_failures_propagate Sample.env_set Sample.codes
              Sample.builtins Sample.world_mute (Sample.status_with [])
              (JsError "sentry down"))
    as [(Henv & _)|(_ & H)].
  - reflexivity.
  - discriminate Henv.
  - exact H.
Defined.

(** ** The configuration guard *)

Lemma env_defined_false (env : Env) :
  env_defined env = false
  <-> WHATSAPP_PREVIEW_FROM_PHONE_NUMBER_ID env = None
      \/ WHATSAPP_PREVIEW_FROM_PHONE_NUMBER_ID env = Some EmptyString.
Proof.
  unfold env_defined, truthy_string.
  destruct (WHATSAPP_PREVIEW_FROM_PHONE_NUMBER_ID env) as [[|c s]|]; cbn.
  - split; [right; reflexivity | reflexivity].
  - split; [discriminate | intros [H|H]; discriminate].
  - split; [left; reflexivity | reflexivity].
Qed.

(** X5.  The handler throws without having made a single call exactly
    when the environment value is absent or the empty string (which
    [assertEnv] rejects alike); the exception is then the [TRPCError]
    with code [INTERNAL_SERVER_ERROR]. *)
Theorem throws_before_any_call_iff_env_unset :
  forall (env : Env) (codes : IncomingWebhookErrorCodes) (B : Builtins)
         (W : World) (entry : list Entry),
    ((exists e, run env codes B W entry = (inl e, []))
     <-> WHATSAPP_PREVIEW_FROM_PHONE_NUMBER_ID env = None
         \/ WHATSAPP_PREVIEW_FROM_PHONE_NUMBER_ID env = Some EmptyString)
    /\ (forall e,
           run env codes B W entry = (inl e, []) ->
           e = TRPCError "INTERNAL_SERVER_ERROR"
                 "WHATSAPP_PREVIEW_FROM_PHONE_NUMBER_ID is not defined").
Proof.
  intros env codes B W entry.
  assert (Hinv : forall e,
             run env codes B W entry = (inl e, []) ->
             env_defined env = false
             /\ e = TRPCError "INTERNAL_SERVER_ERROR"
                      "WHATSAPP_PREVIEW_FROM_PHONE_NUMBER_ID is not defined").
  { intros e Hrun.
    destruct (env_defined env) eqn:Henv.
    - destruct (run_decompose env codes B W entry)
        as (head & _ & [(_ & Hret)|(_ & err & Hcaught)]).
      + rewrite Henv in Hret. destruct (Hret eq_refl) as [r Hr].
        rewrite Hrun in Hr. discriminate.
      + rewrite Hcaught in Hrun. unfold caught in Hrun.
        injection Hrun as Hfst Hsnd.
        destruct (fst (report B W err [])) as [e'|[]] eqn:Hrep;
          [|discriminate].
        destruct (report_failure B W err e' Hrep) as (tr & ev & Htr & _).
        rewrite Htr in Hsnd. apply app_eq_nil in Hsnd.
        destruct Hsnd as [_ Hsnd]. apply app_eq_nil in Hsnd.
        destruct Hsnd as [_ Hsnd]. discriminate.
    - rewrite run_unset in Hrun by exact Henv.
      injection Hrun as <-. split; reflexivity. }
  split; [split|].
  - intros [e Hrun]. apply env_defined_false. exact (proj1 (Hinv e Hrun)).
  - intros Henv. apply env_defined_false in Henv.
    eexists. apply run_unset. exact Henv.
  - intros e Hrun. exact (proj2 (Hinv e Hrun)).
Qed.

Lemma throws_before_any_call_iff_env_unset_witness :
  exists e,
    run {| WHATSAPP_PREVIEW_FROM_PHONE_NUMBER_ID := Some EmptyString |}
      Sample.codes Sample.builtins Sample.world_up Sample.inbound_text
    = (inl e, []).
Proof.
  apply (throws_before_any_call_iff_env_unset
           {| WHATSAPP_PREVIEW_FROM_PHONE_NUMBER_ID := Some EmptyString |}
           Sample.codes Sample.builtins Sample.world_up Sample.inbound_text).
  right. reflexivity.
Defined.

(** ** The known codes *)

(** X6.  When the first error's code is the one of "Message
    undeliverable" (and not the one of the unengaged user, which is tested
    first), the invocation is a single call,
    [Sentry.captureMessage("Message undeliverable", undefined)]: no
    session is deleted, no flow resumed, and the response is
    [{message: "Message received"}] unless that very call throws. *)
Theorem undeliverable_reported_classified :
  forall (env : Env) (codes : IncomingWebhookErrorCodes) (B : Builtins)
         (W : World) (entry : list Entry) (st : Status)
         (errs : list Error) (error : Error),
    env_defined env = true ->
    first_status entry = Some st ->
    errors st = Some errs ->
    Array_at errs 0 = Some error ->
    code error <> Could_not_send_message_to_unengaged_user codes ->
    code error = Message_undeliverable codes ->
    run env codes B W entry
    = (match captureMessage_outcome W "Message undeliverable" None with
       | Some e => inl e
       | None => inr {| response_message := "Message received" |}
       end,
       [Call_Sentry_captureMessage "Message undeliverable" None]).
Proof.
  intros env codes B W entry st errs error Henv Hst Herrs Hfirst Hne Hcode.
  rewrite (run_caught env codes B W entry
             (WhatsAppError "Message undeliverable" None) [] Henv).
  - unfold caught. rewrite report_classified. cbn [fst snd app].
    destruct (captureMessage_outcome W _ _); reflexivity.
  - rewrite try_block_eq.
    rewrite (processErrors_other codes B W entry st errs error [] Hst Herrs
               Hfirst Hne).
    rewrite Hcode, Z.eqb_refl. reflexivity.
Qed.

Lemma undeliverable_reported_classified_witness :
  run Sample.env_set Sample.codes Sample.builtins Sample.world_up
    (Sample.status_with [Sample.error_of 131026; Sample.error_of 131047])
  = (inr {| response_message := "Message received" |},
     [Call_Sentry_captureMessage "Message undeliverable" None]).
Proof.
  apply (undeliverable_reported_classified Sample.env_set Sample.codes
           Sample.builtins Sample.world_up
           (Sample.status_with [Sample.error_of 131026; Sample.error_of 131047])
           (Sample.failed_status
              [Sample.error_of 131026; Sample.error_of 131047])
           [Sample.error_of 131026; Sample.error_of 131047]
           (Sample.error_of 131026)).
  - reflexivity.
  - reflexivity.
  - reflexivity.
  - reflexivity.
  - discriminate.
  - reflexivity.
Defined.

(** X7.  When the first error's code is the one of "Media upload error"
    (and neither of the two tested before it), the invocation is a single
    call, [Sentry.captureMessage("Media upload error", {reason})], where
    [reason] is the [error_data] of that error ([undefined] when the
    error has none). *)
Theorem media_upload_reported_with_reason :
  forall (env : Env) (codes : IncomingWebhookErrorCodes) (B : Builtins)
         (W : World) (entry : list Entry) (st : Status)
         (errs : list Error) (error : Error),
    env_defined env = true ->
    first_status entry = Some st ->
    errors st = Some errs ->
    Array_at errs 0 = Some error ->
    code error <> Could_not_send_message_to_unengaged_user codes ->
    code error <> Message_undeliverable codes ->
    code error = Media_upload_error codes ->
    let details :=
      Some (JObject [("reason",
                      match error_data error with
                      | Some data => data
                      | None => JUndefined
                      end)]) in
    run env codes B W entry
    = (match captureMessage_outcome W "Media upload error" details with
       | Some e => inl e
       | None => inr {| response_message := "Message received" |}
       end,
       [Call_Sentry_captureMessage "Media upload error" details]).
Proof.
  intros env codes B W entry st errs error Henv Hst Herrs Hfirst Hne1 Hne2
    Hcode details.
  apply Z.eqb_neq in Hne2.
  rewrite (run_caught env codes B W entry
             (WhatsAppError "Media upload error" details) [] Henv).
  - unfold caught. rewrite report_classified. cbn [fst snd app].
    destruct (captureMessage_outcome W _ _); reflexivity.
  - rewrite try_block_eq.
    rewrite (processErrors_other codes B W entry st errs error [] Hst Herrs
               Hfirst Hne1).
    rewrite Hne2, Hcode, Z.eqb_refl. reflexivity.
Qed.

Lemma media_upload_reported_with_reason_witness :
  run Sample.env_set Sample.codes Sample.builtins Sample.world_up
    (Sample.status_with
       [ {| code := 131053;
            error_data := Some (JObject [("details", JString "too large")]);
            error_fields := [] |} ])
  = (inr {| response_message := "Message received" |},
     [Call_Sentry_captureMessage "Media upload error"
        (Some (JObject
                 [("reason",
                   JObject [("details", JString "too large")])]))]).
Proof.
  apply (media_upload_reported_with_reason Sample.env_set Sample.codes
           Sample.builtins Sample.world_up
           (Sample.status_with
              [ {| code := 131053;
                   error_data :=
                     Some (JObject [("details", JString "too large")]);
                   error_fields := [] |} ])
           (Sample.failed_status
              [ {| code := 131053;
                   error_data :=
                     Some (JObject [("details", JString "too large")]);
                   error_fields := [] |} ])
           [ {| code := 131053;
                error_data :=
                  Some (JObject [("details", JString "too large")]);
                error_fields := [] |} ]
           {| code := 131053;
              error_data := Some (JObject [("details", JString "too large")]);
              error_fields := [] |}).
  - reflexivity.
  - reflexivity.
  - reflexivity.
  - reflexivity.
  - discriminate.
  - discriminate.
  - reflexivity.
Defined.

(** ** Collaborators that fail *)

(** X8.  When [resumeWhatsAppFlow] throws, the handler does not call it
    again: it reports the exception and, telemetry permitting, still
    returns [{message: "Message received"}].  A [WhatsAppError] thrown by
    the flow engine is reported like the handler's own, by
    [Sentry.captureMessage] with its message and details; anything else
    goes through [parseUnknownError], a breadcrumb and
    [Sentry.captureException]. *)
Theorem resumption_failure_is_reported_not_retried :
  forall (env : Env) (codes : IncomingWebhookErrorCodes) (B : Builtins)
         (W : World) (entry : list Entry) (m : Message) (e : Exn),
    env_defined env = true ->
    reporters_ok W ->
    first_status_errors entry = None ->
    first_message entry = Some m ->
    type m <> "reaction" ->
    resumeWhatsAppFlow_outcome W (resume_args_of entry m) = Some e ->
    fst (run env codes B W entry)
    = inr {| response_message := "Message received" |}
    /\ match e with
       | WhatsAppError msg details =>
           snd (run env codes B W entry)
           = [Call_resumeWhatsAppFlow (resume_args_of entry m);
              Call_Sentry_captureMessage msg details]
       | _ =>
           exists details,
             snd (run env codes B W entry)
             = [Call_resumeWhatsAppFlow (resume_args_of entry m);
                Call_console_log [JString "Sending unkown error to Sentry"];
                Call_parseUnknownError e;
                Call_console_log [JString "details"; details];
                Call_Sentry_addBreadcrumb (breadcrumb_data details);
                Call_Sentry_captureException e]
       end.
Proof.
  intros env codes B W entry m e Henv Hok Hse Hm Htype Hout.
  apply String.eqb_neq in Htype.
  assert (Hrun : run env codes B W entry
                 = caught B W e
                     [Call_resumeWhatsAppFlow (resume_args_of entry m)]).
  { apply run_caught; [exact Henv|].
    rewrite try_block_eq, processErrors_returns by exact Hse.
    rewrite Hm, Htype, Hout. reflexivity. }
  rewrite Hrun. unfold caught. cbn [fst snd].
  rewrite (report_completes B W e [] Hok). split; [reflexivity|].
  destruct Hok as (_ & Hparse & Hcrumb & Hexn).
  assert (unclassified :
    instanceof_WhatsAppError e = false ->
    exists details,
      [Call_resumeWhatsAppFlow (resume_args_of entry m)]
        ++ snd (report B W e [])
      = [Call_resumeWhatsAppFlow (resume_args_of entry m);
         Call_console_log [JString "Sending unkown error to Sentry"];
         Call_parseUnknownError e;
         Call_console_log [JString "details"; details];
         Call_Sentry_addBreadcrumb (breadcrumb_data details);
         Call_Sentry_captureException e]).
  { intros Hinst. rewrite (report_unclassified_eq B W e []) by exact Hinst.
    destruct (Hparse e) as [parsed ->]. cbv zeta.
    rewrite Hcrumb, Hexn. eexists. reflexivity. }
  destruct e as [c msg|msg details|msg|v];
    try (apply unclassified; reflexivity).
  rewrite report_classified. reflexivity.
Qed.

Lemma resumption_failure_is_reported_not_retried_witness :
  fst (run Sample.env_set Sample.codes Sample.builtins Sample.world_down
         Sample.inbound_text)
  = inr {| response_message := "Message received" |}.
Proof.
  destruct (resumption_failure_is_reported_not_retried Sample.env_set
              Sample.codes Sample.builtins Sample.world_down
              Sample.inbound_text Sample.text_message
              (JsError "flow engine down")) as (Hfst & _).
  - reflexivity.
  - exact sample_reporters_down.
  - reflexivity.
  - reflexivity.
  - discriminate.
  - reflexivity.
  - exact Hfst.
Defined.

(** X9.  When the first error is the one of the unengaged user and
    [deleteSession] throws something that is not a [WhatsAppError], the
    classified error is never raised: no [Sentry.captureMessage] is made
    in that invocation, and the store's exception is what goes to
    [parseUnknownError]. *)
Theorem deletion_failure_replaces_classified_error :
  forall (env : Env) (codes : IncomingWebhookErrorCodes) (B : Builtins)
         (W : World) (entry : list Entry) (st : Status)
         (errs : list Error) (error : Error) (failure : Exn),
    env_defined env = true ->
    first_status entry = Some st ->
    errors st = Some errs ->
    Array_at errs 0 = Some error ->
    code error = Could_not_send_message_to_unengaged_user codes ->
    deleteSession_outcome W ("wa-preview-" ++ recipient_id st)%string
    = Some failure ->
    instanceof_WhatsAppError failure = false ->
    (forall msg details,
        ~ In (Call_Sentry_captureMessage msg details)
            (snd (run env codes B W entry)))
    /\ exists rest,
        snd (run env codes B W entry)
        = Call_deleteSession ("wa-preview-" ++ recipient_id st)%string
            :: Call_console_log [JString "Sending unkown error to Sentry"]
            :: Call_parseUnknownError failure :: rest.
Proof.
  intros env codes B W entry st errs error failure Henv Hst Herrs Hfirst
    Hcode Hout Hinst.
  assert (Hrun : run env codes B W entry
                 = caught B W failure
                     [Call_deleteSession
                        ("wa-preview-" ++ recipient_id st)%string]).
  { apply run_caught; [exact Henv|].
    rewrite try_block_eq.
    rewrite (processErrors_unengaged codes B W entry st errs error [] Hst
               Herrs Hfirst Hcode).
    unfold whatsAppPreviewSessionIdPrefix. rewrite Hout. reflexivity. }
  rewrite Hrun. unfold caught. cbn [snd].
  rewrite (report_unclassified_eq B W failure []) by exact Hinst.
  destruct (parseUnknownError_outcome W failure) as [e'|parsed]; cbv zeta;
    [|destruct (addBreadcrumb_outcome W _);
      [|destruct (captureException_outcome W failure)]];
    cbn [snd app];
    (split;
     [intros msg details H; cbn [In] in H;
      repeat (destruct H as [H|H]; try discriminate H); contradiction
     |eexists; reflexivity]).
Qed.

Lemma deletion_failure_replaces_classified_error_witness :
  exists rest,
    snd (run Sample.env_set Sample.codes Sample.builtins Sample.world_down
           (Sample.status_with [Sample.error_of 131047]))
    = Call_deleteSession "wa-preview-33612345678"
        :: Call_console_log [JString "Sending unkown error to Sentry"]
        :: Call_parseUnknownError (JsError "session store down") :: rest.
Proof.
  destruct (deletion_failure_replaces_classified_error Sample.env_set
              Sample.codes Sample.builtins Sample.world_down
              (Sample.status_with [Sample.error_of 131047])
              (Sample.failed_status [Sample.error_of 131047])
              [Sample.error_of 131047] (Sample.error_of 131047)
              (JsError "session store down")) as (_ & Hrest).
  - reflexivity.
  - reflexivity.
  - reflexivity.
  - reflexivity.
  - reflexivity.
  - reflexivity.
  - reflexivity.
  - exact Hrest.
Defined.

(** ** Payloads with nothing to do *)

Lemma caught_not_no_content (B : Builtins) (W : World) (e : Exn)
      (head : Trace) :
  fst (caught B W e head)
  <> inr {| response_message := "No message content found" |}.
Proof.
  unfold caught. cbn [fst].
  destruct (fst (report B W e [])) as [e'|[]]; discriminate.
Qed.

(** X10.  With the environment value set, the response is
    [{message: "No message content found"}] exactly when the first
    status has no [errors] field and the first message is missing or a
    reaction; the handler has then made no call at all. *)
Theorem no_content_iff :
  forall (env : Env) (codes : IncomingWebhookErrorCodes) (B : Builtins)
         (W : World) (entry : list Entry),
    env_defined env = true ->
    (fst (run env codes B W entry)
     = inr {| response_message := "No message content found" |}
     <-> first_status_errors entry = None
         /\ (first_message entry = None
             \/ exists m, first_message entry = Some m
                          /\ type m = "reaction"))
    /\ (fst (run env codes B W entry)
        = inr {| response_message := "No message content found" |} ->
        snd (run env codes B W entry) = []).
Proof.
  intros env codes B W entry Henv.
  destruct (run_shape env codes B W entry Henv)
    as [(Hse & Hmsg & Hrun)
       |[(Hse & m & Hm & Htype & [(_ & Hrun)|(e & _ & Hrun)])
        |(st & errs & Hst & Herrs & [(e & _ & Hrun)|(error & _ & _ & Hrun)])]];
    rewrite Hrun.
  - split; [split; [intros _; split; assumption | reflexivity]|reflexivity].
  - split; [split|]; try discriminate.
    intros (_ & [Hnone|(m' & Hm' & Htype')]); [congruence|].
    rewrite Hm in Hm'. injection Hm' as <-. contradiction.
  - split; [split|]; try (intros H; destruct (caught_not_no_content _ _ _ _ H)).
    intros (_ & [Hnone|(m' & Hm' & Htype')]); [congruence|].
    rewrite Hm in Hm'. injection Hm' as <-. contradiction.
  - split; [split|]; try (intros H; destruct (caught_not_no_content _ _ _ _ H)).
    intros (Hse & _). unfold first_status_errors in Hse.
    rewrite Hst in Hse. congruence.
  - split; [split|]; try (intros H; destruct (caught_not_no_content _ _ _ _ H)).
    intros (Hse & _). unfold first_status_errors in Hse.
    rewrite Hst in Hse. congruence.
Qed.

Lemma no_content_iff_witness :
  fst (run Sample.env_set Sample.codes Sample.builtins Sample.world_up
         (Sample.payload_of
            {| statuses := None;
               messages := Some [Sample.reaction_message; Sample.text_message];
               contacts := None |}))
  = inr {| response_message := "No message content found" |}.
Proof.
  apply (no_content_iff Sample.env_set Sample.codes Sample.builtins
           Sample.world_up
           (Sample.payload_of
              {| statuses := None;
                 messages := Some [Sample.reaction_message;
                                   Sample.text_message];
                 contacts := None |})).
  - reflexivity.
  - split; [reflexivity|]. right. exists Sample.reaction_message.
    split; reflexivity.
Defined.

(** X11.  A payload without entries, one whose first entry has no
    change, and one whose [messages] array is present but empty are all
    answered [{message: "No message content found"}] without any call,
    whatever else they carry (but errors on the first status). *)
Theorem empty_payloads_are_no_content :
  forall (env : Env) (codes : IncomingWebhookErrorCodes) (B : Builtins)
         (W : World),
    env_defined env = true ->
    run env codes B W []
    = (inr {| response_message := "No message content found" |}, [])
    /\ (forall entries,
           run env codes B W ({| changes := [] |} :: entries)
           = (inr {| response_message := "No message content found" |}, []))
    /\ (forall entry v,
           first_value entry = Some v ->
           messages v = Some [] ->
           first_status_errors entry = None ->
           run env codes B W entry
           = (inr {| response_message := "No message content found" |}, [])).
Proof.
  intros env codes B W Henv.
  assert (Hnone : forall entry,
             first_status_errors entry = None ->
             first_message entry = None ->
             run env codes B W entry
             = (inr {| response_message := "No message content found" |}, [])).
  { intros entry Hse Hm. unfold run.
    rewrite receiveMessagePreview_eq by exact Henv.
    rewrite try_block_eq, processErrors_returns by exact Hse.
    rewrite Hm. reflexivity. }
  split; [|split].
  - apply Hnone; reflexivity.
  - intros entries. apply Hnone; reflexivity.
  - intros entry v Hv Hmsgs Hse. apply Hnone; [exact Hse|].
    unfold first_message. rewrite Hv, Hmsgs. reflexivity.
Qed.

Lemma empty_payloads_are_no_content_witness :
  run Sample.env_set Sample.codes Sample.builtins Sample.world_up
    (Sample.payload_of {| statuses := None; messages := Some [];
                          contacts := Some [Sample.john] |})
  = (inr {| response_message := "No message content found" |}, []).
Proof.
  destruct (empty_payloads_are_no_content Sample.env_set Sample.codes
              Sample.builtins Sample.world_up) as (_ & _ & Hempty).
  - reflexivity.
  - apply (Hempty _ {| statuses := None; messages := Some [];
                       contacts := Some [Sample.john] |}); reflexivity.
Defined.

(** ** Session ids *)




(** ** The breadcrumb of an unclassified error *)

(** X13.  For an error that is not a [WhatsAppError], once
    [parseUnknownError] has answered, the handler adds one breadcrumb
    whose [data] is: the parsed details when they are a JSON object;
    [{details: <the raw string>}] when [JSON.parse] rejects them or when
    they are the empty string (which is not parsed at all);
    [{details: null}] when they parse to [null]; [{details: undefined}]
    when there are none.  A text that does not parse never makes the
    handler fail. *)
Theorem unclassified_breadcrumb_content :
  forall (B : Builtins) (W : World) (err : Exn) (parsed : option string),
    instanceof_WhatsAppError err = false ->
    parseUnknownError_outcome W err = inr parsed ->
    let data := breadcrumb_data (safeJsonParse B parsed) in
    In (Call_Sentry_addBreadcrumb data) (snd (report B W err []))
    /\ (forall other,
           In (Call_Sentry_addBreadcrumb other) (snd (report B W err [])) ->
           other = data)
    /\ (parsed = None -> data = JObject [("details", JUndefined)])
    /\ (parsed = Some EmptyString ->
        data = JObject [("details", JString EmptyString)])
    /\ (forall s fields,
           parsed = Some s -> s <> EmptyString ->
           JSON_parse B s = Some (JObject fields) ->
           data = JObject fields)
    /\ (forall s,
           parsed = Some s -> JSON_parse B s = None ->
           data = JObject [("details", JString s)])
    /\ (forall s,
           parsed = Some s -> s <> EmptyString ->
           JSON_parse B s = Some JNull ->
           data = JObject [("details", JNull)]).
Proof.
  intros B W err parsed Hinst Hparse data.
  assert (Hnonempty : forall s, s <> EmptyString ->
                                truthy_string (Some s) = true).
  { intros [|c s] Hs; [contradiction | reflexivity]. }
  split; [|split; [|split; [|split; [|split; [|split]]]]].
  - rewrite (report_unclassified_eq B W err []) by exact Hinst.
    rewrite Hparse. cbv zeta. fold data.
    destruct (addBreadcrumb_outcome W data);
      [|destruct (captureException_outcome W err)];
      cbn [snd app In]; auto 6.
  - intros other.
    rewrite (report_unclassified_eq B W err []) by exact Hinst.
    rewrite Hparse. cbv zeta. fold data.
    destruct (addBreadcrumb_outcome W data);
      [|destruct (captureException_outcome W err)];
      cbn [snd app In]; intros H;
      repeat (destruct H as [H|H]; try discriminate H);
      try contradiction; injection H as <-; reflexivity.
  - intros ->. reflexivity.
  - intros ->. reflexivity.
  - intros s fields -> Hs Hjson. unfold data, safeJsonParse.
    rewrite (Hnonempty s Hs), Hjson. reflexivity.
  - intros s -> Hjson. unfold data, safeJsonParse. rewrite Hjson.
    destruct (negb (truthy_string (Some s))); reflexivity.
  - intros s -> Hs Hjson. unfold data, safeJsonParse.
    rewrite (Hnonempty s Hs), Hjson. reflexivity.
Qed.

Lemma unclassified_breadcrumb_content_witness :
  In (Call_Sentry_addBreadcrumb (JObject []))
    (snd (report Sample.builtins Sample.world_down
            (JsError "flow engine down") [])).
Proof.
  destruct (unclassified_breadcrumb_content Sample.builtins Sample.world_down
              (JsError "flow engine down") (Some "{}"))
    as (Hin & _).
  - reflexivity.
  - reflexivity.
  - exact Hin.
Defined.

(** ** When the collaborators are called *)

Lemma caught_calls (B : Builtins) (W : World) (e : Exn) (head : Trace) :
  deleteSession_calls (snd (caught B W e head)) = deleteSession_calls head
  /\ resumeWhatsAppFlow_calls (snd (caught B W e head))
     = resumeWhatsAppFlow_calls head.
Proof.
  unfold caught. cbn [snd].
  rewrite deleteSession_calls_app, resumeWhatsAppFlow_calls_app.
  destruct (telemetry_no_calls _ (report_events_telemetry B W e))
    as (-> & -> & _).
  rewrite !app_nil_r. split; reflexivity.
Qed.

(** X14.  [resumeWhatsAppFlow] is called if and only if the environment
    value is set, the first status has no [errors] field and the first
    message exists and is not a reaction. *)
Theorem resumption_called_iff :
  forall (env : Env) (codes : IncomingWebhookErrorCodes) (B : Builtins)
         (W : World) (entry : list Entry),
    resumeWhatsAppFlow_calls (snd (run env codes B W entry)) <> []
    <-> env_defined env = true
        /\ first_status_errors entry = None
        /\ exists m, first_message entry = Some m /\ type m <> "reaction".
Proof.
  intros env codes B W entry.
  destruct (env_defined env) eqn:Henv.
  - destruct (run_shape env codes B W entry Henv)
      as [(Hse & Hmsg & Hrun)
         |[(Hse & m & Hm & Htype & [(_ & Hrun)|(e & _ & Hrun)])
          |(st & errs & Hst & Herrs
            & [(e & _ & Hrun)|(error & _ & _ & Hrun)])]];
      rewrite Hrun;
      try (rewrite (proj2 (caught_calls B W _ _)));
      cbn [snd resumeWhatsAppFlow_calls].
    + split; [intros H; contradiction|].
      intros (_ & _ & m & Hm & Htype).
      destruct Hmsg as [Hnone|(m' & Hm' & Htype')]; [congruence|].
      rewrite Hm in Hm'. injection Hm' as <-. contradiction.
    + split; [|discriminate]. intros _.
      split; [reflexivity|]. split; [exact Hse|]. exists m. split; assumption.
    + split; [|discriminate]. intros _.
      split; [reflexivity|]. split; [exact Hse|]. exists m. split; assumption.
    + split; [intros H; contradiction|].
      intros (_ & Hse & _). unfold first_status_errors in Hse.
      rewrite Hst in Hse. congruence.
    + split; [intros H; contradiction|].
      intros (_ & Hse & _). unfold first_status_errors in Hse.
      rewrite Hst in Hse. congruence.
  - rewrite run_unset by exact Henv.
    cbn [snd deleteSession_calls resumeWhatsAppFlow_calls].
    split; [intros H; contradiction | intros (H & _); discriminate].
Qed.

Lemma resumption_called_iff_witness :
  resumeWhatsAppFlow_calls
    (snd (run Sample.env_set Sample.codes Sample.builtins Sample.world_down
            Sample.inbound_text)) <> [].
Proof.
  apply (resumption_called_iff Sample.env_set Sample.codes Sample.builtins
           Sample.world_down Sample.inbound_text).
  split; [reflexivity|]. split; [reflexivity|].
  exists Sample.text_message. split; [reflexivity | discriminate].
Defined.

(** X15.  [deleteSession] is called if and only if the environment
    value is set and the first error of the first status carries the code
    of the unengaged user: no other code, and no failure elsewhere,
    touches a session. *)
Theorem deletion_called_iff :
  forall (env : Env) (codes : IncomingWebhookErrorCodes) (B : Builtins)
         (W : World) (entry : list Entry),
    deleteSession_calls (snd (run env codes B W entry)) <> []
    <-> env_defined env = true
        /\ exists st errs error,
            first_status entry = Some st
            /\ errors st = Some errs
            /\ Array_at errs 0 = Some error
            /\ code error = Could_not_send_message_to_unengaged_user codes.
Proof.
  intros env codes B W entry.
  destruct (env_defined env) eqn:Henv.
  - destruct (run_shape env codes B W entry Henv)
      as [(Hse & Hmsg & Hrun)
         |[(Hse & m & Hm & Htype & [(_ & Hrun)|(e & _ & Hrun)])
          |(st & errs & Hst & Herrs
            & [(e & Hfirst & Hrun)|(error & Hfirst & Hcode & Hrun)])]];
      rewrite Hrun;
      try (rewrite (proj1 (caught_calls B W _ _)));
      cbn [snd deleteSession_calls].
    + split; [intros H; contradiction|].
      intros (_ & st & errs & error & Hst & Herrs & _).
      unfold first_status_errors in Hse. rewrite Hst in Hse. congruence.
    + split; [intros H; contradiction|].
      intros (_ & st & errs & error & Hst & Herrs & _).
      unfold first_status_errors in Hse. rewrite Hst in Hse. congruence.
    + split; [intros H; contradiction|].
      intros (_ & st & errs & error & Hst & Herrs & _).
      unfold first_status_errors in Hse. rewrite Hst in Hse. congruence.
    + split; [intros H; contradiction|].
      intros (_ & st' & errs' & error' & Hst' & Herrs' & Hfirst' & Hcode').
      rewrite Hst in Hst'. injection Hst' as <-.
      rewrite Herrs in Herrs'. injection Herrs' as <-.
      destruct Hfirst as [Hnone|(error & Hsome & Hne)]; [congruence|].
      rewrite Hsome in Hfirst'. injection Hfirst' as <-. contradiction.
    + split; [|discriminate]. intros _. split; [reflexivity|].
      exists st, errs, error. repeat split; assumption.
  - rewrite run_unset by exact Henv.
    cbn [snd deleteSession_calls resumeWhatsAppFlow_calls].
    split; [intros H; contradiction | intros (H & _); discriminate].
Qed.

Lemma deletion_called_iff_witness :
  deleteSession_calls
    (snd (run Sample.env_set Sample.codes Sample.builtins Sample.world_down
            (Sample.status_with [Sample.error_of 131047]))) <> [].
Proof.
  apply (deletion_called_iff Sample.env_set Sample.codes Sample.builtins
           Sample.world_down (Sample.status_with [Sample.error_of 131047])).
  split; [reflexivity|].
  exists (Sample.failed_status [Sample.error_of 131047]),
    [Sample.error_of 131047], (Sample.error_of 131047).
  repeat split.
Defined.

(** ** When error processing lets the payload through *)

(** X16.  [processErrors] returns normally exactly when the first
    status of the first change has no [errors] field, which includes a
    payload without entries, without changes, without [statuses] or with
    an empty [statuses] array; it has then made no call.  In every other
    case it throws. *)
Theorem processErrors_returns_iff :
  forall (codes : IncomingWebhookErrorCodes) (B : Builtins) (W : World)
         (entry : list Entry) (tr : Trace),
    ((exists tr', processErrors codes B W entry tr = (inr tt, tr'))
     <-> first_status_errors entry = None)
    /\ (first_status_errors entry = None ->
        processErrors codes B W entry tr = (inr tt, tr))
    /\ (first_status_errors entry <> None ->
        exists e tr', processErrors codes B W entry tr = (inl e, tr'))
    /\ (first_value entry = None -> first_status_errors entry = None)
    /\ (forall v, first_value entry = Some v ->
                  statuses v = None \/ statuses v = Some [] ->
                  first_status_errors entry = None).
Proof.
  intros codes B W entry tr.
  assert (Hthrows : first_status_errors entry <> None ->
                    exists e tr',
                      processErrors codes B W entry tr = (inl e, tr')).
  { unfold first_status_errors. intros Hse.
    destruct (first_status entry) as [st|] eqn:Hst; [|contradiction].
    destruct (errors st) as [errs|] eqn:Herrs; [|contradiction].
    destruct (processErrors_throws codes B W entry st errs tr Hst Herrs)
      as (e & evs & Heq & _).
    exists e, (tr ++ evs). exact Heq. }
  split; [split|split; [|split; [|split]]].
  - intros [tr' Hret].
    destruct (first_status_errors entry) as [errs|] eqn:Hse; [|reflexivity].
    destruct Hthrows as (e & tr'' & Heq); [discriminate|].
    rewrite Heq in Hret. discriminate.
  - intros Hse. exists tr. apply processErrors_returns. exact Hse.
  - apply processErrors_returns.
  - exact Hthrows.
  - unfold first_status_errors, first_status. intros ->. reflexivity.
  - unfold first_status_errors, first_status. intros v -> [->| ->];
      reflexivity.
Qed.

Lemma processErrors_returns_iff_witness :
  processErrors Sample.codes Sample.builtins Sample.world_up
    (Sample.payload_of {| statuses := Some []; messages := None;
                          contacts := None |}) []
  = (inr tt, []).
Proof.
  destruct (processErrors_returns_iff Sample.codes Sample.builtins
              Sample.world_up
              (Sample.payload_of {| statuses := Some []; messages := None;
                                    contacts := None |}) [])
    as (_ & Hret & _).
  apply Hret. reflexivity.
Defined.
